(** * A Rocq model of the Paranal calibration pipeline

    The development follows the two source files of the repository:
    - [pipeline/reducer.py]: [reduce_science_file], the numeric reduction
      (median dark, median dark-subtracted flat, normalisation, clamp,
      division), over IEEE binary64 pixels;
    - [pipeline/database.py]: the class [DatabaseInterface] over its five
      SQLite tables and the batch ingestion [register_fits_files].

    Python exceptions are values of [exn]; a computation that may raise is in
    [result]; a method of [DatabaseInterface] is a state transformer over the
    connection and the console. *)

From Stdlib Require Import ZArith List Bool Lia Floats Ascii String DecimalString
  DecimalZ Sorted.
From stdpp Require Import base gmap strings list.

(** ** Exceptions and the two monads *)

Inductive exn :=
  | TypeError | ValueError | OverflowError | FileNotFoundError | IntegrityError.

Inductive result (A : Type) :=
  | Ok (a : A)
  | Raise (e : exn).
Arguments Ok {A} a.
Arguments Raise {A} e.

#[global] Instance result_ret : MRet result := @Ok.
#[global] Instance result_bind : MBind result :=
  fun A B f m => match m with Ok a => f a | Raise e => Raise e end.

(** A statement sequence over a mutable state [S]: an exception stops the
    sequence and keeps the state reached so far. *)
Definition M (S A : Type) : Type := S -> result A * S.

#[global] Instance M_ret S : MRet (M S) := fun A a s => (Ok a, s).
#[global] Instance M_bind S : MBind (M S) :=
  fun A B f m s =>
    match m s with
    | (Ok a, s') => f a s'
    | (Raise e, s') => (Raise e, s')
    end.

Definition lift {S A} (r : result A) : M S A := fun s => (r, s).

(** A list comprehension [[f x for x in l]]: left to right, the first
    exception wins. *)
Fixpoint for_each {A B} (f : A -> result B) (l : list A) : result (list B) :=
  match l with
  | [] => Ok []
  | a :: t => b ← f a; bs ← for_each f t; Ok (b :: bs)
  end.

(** ** FITS files

    [card] is the value of a header card as astropy hands it to Python. The
    header keeps the cards this program reads or writes; the ESO keywords
    FILT1 NAME, DPR CATG, DPR TYPE, READ SPEED, DATE and OBJECT are
    character-string cards, MJD-OBS and EXPTIME floating-point cards, and
    [None] is an absent card ([header.get] returns [None]). The two CDELT
    cards go through [int(...)] and keep their dynamic type. *)

Inductive card :=
  | CStr (s : string)
  | CInt (z : Z)
  | CFloat (x : float)
  | CBool (b : bool).

Record header := {
  CDELT1 : option card;
  CDELT2 : option card;
  INS_FILT1_NAME : option string;
  DPR_CATG : option string;
  DPR_TYPE : option string;
  MJD_OBS : option float;
  EXPTIME : option float;
  DET_READ_SPEED : option string;
  DATE : option string;
  OBJECT : option string;
  REDUC : option string
}.

(** [header['REDUC'] = v] *)
Definition set_REDUC (v : string) (h : header) : header :=
  {| CDELT1 := CDELT1 h; CDELT2 := CDELT2 h;
     INS_FILT1_NAME := INS_FILT1_NAME h; DPR_CATG := DPR_CATG h;
     DPR_TYPE := DPR_TYPE h; MJD_OBS := MJD_OBS h; EXPTIME := EXPTIME h;
     DET_READ_SPEED := DET_READ_SPEED h; DATE := DATE h; OBJECT := OBJECT h;
     REDUC := Some v |}.

(** The pixels of a frame in row-major order, as binary64 numbers. The
    model covers the frames that astropy delivers as float64 arrays, or as
    integer arrays whose values binary64 holds exactly: numpy promotes these
    to float64 in the median and in the subtraction of the combined dark.
    Frames delivered as float32 (BITPIX -32, or scaled 8- and 16-bit data)
    are reduced by numpy in float32 and are outside this model. A frame is
    modelled by its pixels alone: frames of one pixel count stand for frames
    of one shape. *)
Abbreviation image := (list float).

Record hdu := { hdu_data : image; hdu_header : header }.

Definition getdata (fs : gmap string hdu) (path : string) : result image :=
  match fs !! path with
  | Some f => Ok (hdu_data f)
  | None => Raise FileNotFoundError
  end.

Definition getheader (fs : gmap string hdu) (path : string) : result header :=
  match fs !! path with
  | Some f => Ok (hdu_header f)
  | None => Raise FileNotFoundError
  end.

(** [fits.writeto(path, data=..., header=..., overwrite=True)] *)
Definition writeto (path : string) (data : image) (h : header)
    (fs : gmap string hdu) : gmap string hdu :=
  <[path := {| hdu_data := data; hdu_header := h |}]> fs.

(** ** numpy on binary64 *)

(** What [np.nanmedian(stack, axis=0)] returns: an array, or the scalar
    [nan] for an empty stack. *)
Inductive ndarray :=
  | Scalar (x : float)
  | Array (px : image).

(** The Python literal [1e-8], i.e. the binary64 closest to it. *)
Definition py_1e_8 : float := 0x1.5798ee2308c3ap-27%float.

(** Sorting a NaN-free sample into ascending order, by insertion. Values
    that compare equal are 0.0 and -0.0 only; their order after numpy's sort
    is numpy's own. *)
Fixpoint insert_sorted (x : float) (l : list float) : list float :=
  match l with
  | [] => [x]
  | y :: t => if (x <=? y)%float then x :: l else y :: insert_sorted x t
  end.

Definition sort_floats (l : list float) : list float :=
  foldr insert_sorted [] l.

Definition drop_nan (l : list float) : list float :=
  List.filter (fun x => negb (PrimFloat.is_nan x)) l.

(** [np.median] of a NaN-free sample, the path of [np.nanmedian] along one
    dimension: the middle element, or the mean of the two middle elements;
    [nan] for an empty sample. *)
Definition median (l : list float) : float :=
  let s := sort_floats l in
  let n := length s in
  if Nat.eqb n 0 then nan
  else if Nat.odd n then nth (n / 2) s nan
  else ((nth (n / 2 - 1) s nan + nth (n / 2) s nan) / 2)%float.

Definition nanmedian1d (l : list float) : float := median (drop_nan l).

(** The path of [np.nanmedian(stack, axis=0)] for a stack of fewer than 600
    frames (numpy's masked median): the sum of the lower and the upper middle
    element, halved. For an odd count the two are one element [h], and
    [(h + h) / 2] overflows to an infinity where [h + h] does. *)
Definition median_small (l : list float) : float :=
  let s := sort_floats l in
  let n := length s in
  if Nat.eqb n 0 then nan
  else ((nth ((n - 1) / 2) s nan + nth (n / 2) s nan) / 2)%float.

Definition nanmedian_small (l : list float) : float := median_small (drop_nan l).

(** The median of the values that a stack of [frames] frames has at one
    pixel. *)
Definition stack_median (frames : nat) (l : list float) : float :=
  if Nat.ltb frames 600 then nanmedian_small l else nanmedian1d l.

Definition column (i : nat) (stack : list image) : list float :=
  map (fun im => nth i im nan) stack.

(** [np.nanmedian(stack, axis=0)] on a Python list of frames. *)
Definition nanmedian_axis0 (stack : list image) : result ndarray :=
  match stack with
  | [] => Ok (Scalar nan)
  | a :: rest =>
      if forallb (fun b => Nat.eqb (length b) (length a)) rest
      then Ok (Array (map (fun i => stack_median (length stack) (column i stack))
                          (seq 0 (length a))))
      else Raise ValueError
  end.

(** [np.nanmedian(a)] over all the elements of [a]. *)
Definition nanmedian (a : ndarray) : float :=
  match a with
  | Scalar x => nanmedian1d [x]
  | Array px => nanmedian1d px
  end.

(** [a - b] and [a / b] for a frame [a] and an array of its pixel count or
    a scalar. numpy also stretches an axis of length 1: that case is outside
    this model, which raises where the pixel counts differ. *)
Definition broadcast (op : float -> float -> float) (a : image) (b : ndarray)
    : result image :=
  match b with
  | Scalar y => Ok (map (fun x => op x y) a)
  | Array q =>
      if Nat.eqb (length a) (length q) then Ok (zip_with op a q)
      else Raise ValueError
  end.

(** [a /= m] *)
Definition idiv (a : ndarray) (m : float) : ndarray :=
  match a with
  | Scalar x => Scalar (x / m)%float
  | Array px => Array (map (fun x => (x / m)%float) px)
  end.

(** [a[a < 1e-8] = 1.0]; a numpy scalar supports no item assignment. *)
Definition clamp (a : ndarray) : result image :=
  match a with
  | Scalar _ => Raise TypeError
  | Array px =>
      Ok (map (fun x => if (x <? py_1e_8)%float then 1%float else x) px)
  end.

(** [ndarray] element access, a scalar being broadcast. *)
Definition pixel (a : ndarray) (i : nat) : option float :=
  match a with
  | Scalar x => Some x
  | Array px => px !! i
  end.

(** ** reducer.py

    [reduce_science_file] reads its frames, computes, and writes one file at
    the very end; the three blocks below are the blocks of its body. *)

(** "combine darks": the dark frames and their median along the stack. *)
Definition combine_darks (fs : gmap string hdu) (dark_files : list string)
    : result ndarray :=
  darks ← for_each (getdata fs) dark_files;
  nanmedian_axis0 darks.

(** "load and subtract dark from each flat", "combine flats", "normalize
    combined flat": the value of [combined_flat] after the in-place
    division. *)
Definition normalized_flat (fs : gmap string hdu) (flat_files : list string)
    (combined_dark : ndarray) : result ndarray :=
  flats ← for_each (fun flat => d ← getdata fs flat;
                                broadcast PrimFloat.sub d combined_dark)
                   flat_files;
  combined_flat ← nanmedian_axis0 flats;
  Ok (idiv combined_flat (nanmedian combined_flat)).

Definition reduce_science_file (science_file_path : string)
    (flat_files dark_files : list string) (output_reduced_file_path : string)
    : M (gmap string hdu) unit := fun fs =>
  let computed :=
    combined_dark ← combine_darks fs dark_files;
    combined_flat ← normalized_flat fs flat_files combined_dark;
    combined_flat ← clamp combined_flat;
    science ← getdata fs science_file_path;
    diff ← broadcast PrimFloat.sub science combined_dark;
    reduced_science ← broadcast PrimFloat.div diff (Array combined_flat);
    h ← getheader fs science_file_path;
    Ok (reduced_science, set_REDUC "bias sub and flat field" h) in
  match computed with
  | Ok (reduced_science, h) =>
      (Ok tt, writeto output_reduced_file_path reduced_science h fs)
  | Raise e => (Raise e, fs)
  end.

(** ** The median, said without the sorting routine

    What the reduction computes is compared with these. [median_of] is the
    median as the specification means it; [along_stack] is what numpy makes
    of it along a stack of frames. *)

Module Median.

(** [s] holds the values of [l] that are numbers, each as often as [l] has
    it, in ascending order. *)
Definition ascending_sample (l s : list float) : Prop :=
  (exists nans, l ≡ₚ s ++ nans
                /\ Forall (fun x => PrimFloat.is_nan x = true) nans)
  /\ Forall (fun x => PrimFloat.is_nan x = false) s
  /\ Sorted (fun a b => (a <=? b)%float = true) s.

(** The median of an ascending sample: its middle element, or the mean of
    its two middle elements; not a number for an empty sample. *)
Definition middle (s : list float) : float :=
  let n := length s in
  if Nat.eqb n 0 then nan
  else if Nat.odd n then nth (n / 2) s nan
  else ((nth (n / 2 - 1) s nan + nth (n / 2) s nan) / 2)%float.

(** The lower and the upper middle element of an ascending sample, added and
    halved. For an odd count they are one element [h], which enters as
    [(h + h) / 2]. *)
Definition halved_middles (s : list float) : float :=
  let n := length s in
  if Nat.eqb n 0 then nan
  else ((nth ((n - 1) / 2) s nan + nth (n / 2) s nan) / 2)%float.

(** [m] is the median of the numbers in [l]. *)
Definition median_of (l : list float) (m : float) : Prop :=
  exists s, ascending_sample l s /\ m = middle s.

(** [m] is numpy's median along a stack of [frames] frames at a pixel where
    the frames hold [l]: the halved sum of the two middle numbers for fewer
    than 600 frames, the median from 600 frames on. *)
Definition along_stack (frames : nat) (l : list float) (m : float) : Prop :=
  exists s, ascending_sample l s
            /\ m = if Nat.ltb frames 600 then halved_middles s else middle s.

End Median.

(** ** Python built-ins used by database.py *)

(** [str(z)] for an [int]. *)
Definition str_of_int (z : Z) : string := NilEmpty.string_of_int (Z.to_int z).

(** [str(v)] inside an f-string for a value that may be [None]. *)
Definition str_of_optional (v : option string) : string :=
  match v with Some s => s | None => "None" end.

(** Truth value of a string or [None]. *)
Definition truthy (v : option string) : bool :=
  match v with
  | Some s => negb (String.eqb s "")
  | None => false
  end.

(** [v == s] for a string literal [s]. *)
Definition py_eq (v : option string) (s : string) : bool :=
  match v with
  | Some t => String.eqb t s
  | None => false
  end.

(** [needle in hay] on strings. *)
Fixpoint contains (needle hay : string) : bool :=
  String.prefix needle hay
  || match hay with
     | EmptyString => false
     | String _ rest => contains needle rest
     end.

(** [int(x)] on a float: truncation towards zero. *)
Definition int_of_float (x : float) : result Z :=
  match Prim2SF x with
  | S754_nan => Raise ValueError
  | S754_infinity _ => Raise OverflowError
  | S754_zero _ => Ok 0%Z
  | S754_finite s m e =>
      let v := if (0 <=? e)%Z then (Z.pos m * 2 ^ e)%Z
               else (Z.pos m / 2 ^ (- e))%Z in
      Ok (if s then (- v)%Z else v)
  end.

(** [int(s)] on a string (FITS headers are ASCII): surrounding white space,
    an optional sign, decimal digits with single underscores between them,
    and no more than 4300 digits (the default [sys.int_max_str_digits] of
    CPython 3.11 and later). *)
Definition is_space (c : ascii) : bool :=
  let n := nat_of_ascii c in
  (Nat.leb 9 n && Nat.leb n 13) || (Nat.leb 28 n && Nat.leb n 32).

Fixpoint lstrip (cs : list ascii) : list ascii :=
  match cs with
  | c :: rest => if is_space c then lstrip rest else cs
  | [] => []
  end.

Definition strip (cs : list ascii) : list ascii :=
  rev (lstrip (rev (lstrip cs))).

Definition digit_of (c : ascii) : option Z :=
  let n := nat_of_ascii c in
  if Nat.leb 48 n && Nat.leb n 57 then Some (Z.of_nat (n - 48)) else None.

Fixpoint parse_digits (acc : Z) (after_digit : bool) (cs : list ascii)
    : option Z :=
  match cs with
  | [] => if after_digit then Some acc else None
  | c :: rest =>
      match digit_of c with
      | Some d => parse_digits (10 * acc + d)%Z true rest
      | None =>
          if Ascii.eqb c "_" && after_digit then parse_digits acc false rest
          else None
      end
  end.

Definition int_of_str (s : string) : result Z :=
  let cs := strip (list_ascii_of_string s) in
  let '(neg, ds) :=
    match cs with
    | c :: rest =>
        if Ascii.eqb c "-" then (true, rest)
        else if Ascii.eqb c "+" then (false, rest)
        else (false, cs)
    | [] => (false, cs)
    end in
  if Nat.ltb 4300
       (length (List.filter (fun c => bool_decide (digit_of c <> None)) ds))
  then Raise ValueError
  else
    match parse_digits 0 false ds with
    | Some v => Ok (if neg then (- v)%Z else v)
    | None => Raise ValueError
    end.

(** [int(header.get(key))] *)
Definition py_int (v : option card) : result Z :=
  match v with
  | None => Raise TypeError
  | Some (CInt z) => Ok z
  | Some (CBool b) => Ok (if b then 1%Z else 0%Z)
  | Some (CFloat x) => int_of_float x
  | Some (CStr s) => int_of_str s
  end.

(** ** The SQLite store

    One record per table row, with the columns of [create_tables]. A TEXT
    column that receives [header.get(...)] may hold NULL ([None]). SQLite
    does not enforce the FOREIGN KEY clauses (the pragma is never switched
    on), it does enforce PRIMARY KEY and UNIQUE. *)

Record raw_files_row := {
  rf_id : Z;
  rf_path : string;
  rf_binning : string;
  rf_filter : option string;
  rf_category : option string;
  rf_type : option string;
  rf_mjd : option float;
  rf_exposure_time : option float;
  rf_read_speed : option string;
  rf_object_name : option string;
  rf_date : option string
}.

Record flats_row := {
  fl_id : Z;
  fl_raw_file_id : Z;
  fl_binning : string;
  fl_filter : option string;
  fl_read_speed : option string
}.

Record darks_row := {
  dk_id : Z;
  dk_raw_file_id : Z;
  dk_binning : string;
  dk_read_speed : option string
}.

Record science_row := {
  sc_id : Z;
  sc_raw_file_id : Z;
  sc_unique_key : string;
  sc_object_name : string;
  sc_date : string
}.

Record reduced_data_row := {
  rd_id : Z;
  rd_science_unique_key : string;
  rd_reduced_path : string
}.

Record database := {
  raw_files : list raw_files_row;
  flats : list flats_row;
  darks : list darks_row;
  science : list science_row;
  reduced_data : list reduced_data_row
}.

(** [DatabaseInterface(db_path)] on a new file: [create_tables] leaves five
    empty tables; on an existing file it changes nothing. *)
Definition create_tables : database :=
  {| raw_files := []; flats := []; darks := []; science := [];
     reduced_data := [] |}.

(** The process state a method runs in: the connection [self.conn] and what
    [print] has written. *)
Record world := { conn : database; stdout : list string }.

Definition print (line : string) : M world unit :=
  fun w => (Ok tt, {| conn := conn w; stdout := stdout w ++ [line] |}).

(** A SELECT. *)
Definition query {A} (q : database -> A) : M world A :=
  fun w => (Ok (q (conn w)), w).

(** An INSERT followed by [commit]; a violated constraint raises and leaves
    the tables as they were. *)
Definition execute {A} (stmt : database -> result (A * database)) : M world A :=
  fun w =>
    match stmt (conn w) with
    | Ok (a, db) => (Ok a, {| conn := db; stdout := stdout w |})
    | Raise e => (Raise e, w)
    end.

(** The rowid SQLite gives a new row of an INTEGER PRIMARY KEY table: one
    more than the largest in use, 1 in an empty table. *)
Definition next_rowid (ids : list Z) : Z :=
  match ids with
  | [] => 1%Z
  | i :: rest => (1 + foldr Z.max i rest)%Z
  end.

(** SQL [=] on a nullable TEXT value: NULL equals nothing, so a WHERE
    clause drops the row. *)
Definition sql_eq (a b : option string) : bool :=
  match a, b with
  | Some x, Some y => String.eqb x y
  | _, _ => false
  end.

(** ** database.py: class DatabaseInterface *)

(** The dictionary [file_info] built by [register_fits_files]. *)
Record file_info := {
  fi_path : string;
  fi_binning : string;
  fi_filter : option string;
  fi_category : option string;
  fi_type : option string;
  fi_mjd : option float;
  fi_exposure_time : option float;
  fi_read_speed : option string;
  fi_object_name : option string;
  fi_date : option string
}.

Definition raw_file_exists (path : string) : M world bool :=
  query (fun db => existsb (fun r => String.eqb (rf_path r) path) (raw_files db)).

(** [INSERT INTO raw_files (...)]; [path] is UNIQUE. *)
Definition insert_raw_files (fi : file_info) (db : database)
    : result (Z * database) :=
  if existsb (fun r => String.eqb (rf_path r) (fi_path fi)) (raw_files db)
  then Raise IntegrityError
  else
    let id := next_rowid (map rf_id (raw_files db)) in
    let row :=
      {| rf_id := id; rf_path := fi_path fi; rf_binning := fi_binning fi;
         rf_filter := fi_filter fi; rf_category := fi_category fi;
         rf_type := fi_type fi; rf_mjd := fi_mjd fi;
         rf_exposure_time := fi_exposure_time fi;
         rf_read_speed := fi_read_speed fi;
         rf_object_name := fi_object_name fi; rf_date := fi_date fi |} in
    Ok (id, {| raw_files := raw_files db ++ [row]; flats := flats db;
               darks := darks db; science := science db;
               reduced_data := reduced_data db |}).

Definition add_raw_file (fi : file_info) : M world (option Z) :=
  present ← raw_file_exists (fi_path fi);
  if present : bool then mret None
  else
    lastrowid ← execute (insert_raw_files fi);
    mret (Some lastrowid).

(** [INSERT OR IGNORE INTO flats (...)]; [raw_file_id] is UNIQUE. *)
Definition insert_or_ignore_flats (raw_file_id : Z) (binning : string)
    (filter_name read_speed : option string) (db : database)
    : result (unit * database) :=
  if existsb (fun r => Z.eqb (fl_raw_file_id r) raw_file_id) (flats db)
  then Ok (tt, db)
  else
    let row :=
      {| fl_id := next_rowid (map fl_id (flats db));
         fl_raw_file_id := raw_file_id; fl_binning := binning;
         fl_filter := filter_name; fl_read_speed := read_speed |} in
    Ok (tt, {| raw_files := raw_files db; flats := flats db ++ [row];
               darks := darks db; science := science db;
               reduced_data := reduced_data db |}).

(** The [cursor.lastrowid] that [add_flat], [add_dark] and
    [add_reduced_data] return is used by no caller and is left out. *)
Definition add_flat (raw_file_id : Z) (binning : string)
    (filter_name read_speed : option string) : M world unit :=
  execute (insert_or_ignore_flats raw_file_id binning filter_name read_speed).

(** [INSERT OR IGNORE INTO darks (...)]; [raw_file_id] is UNIQUE. *)
Definition insert_or_ignore_darks (raw_file_id : Z) (binning : string)
    (read_speed : option string) (db : database) : result (unit * database) :=
  if existsb (fun r => Z.eqb (dk_raw_file_id r) raw_file_id) (darks db)
  then Ok (tt, db)
  else
    let row :=
      {| dk_id := next_rowid (map dk_id (darks db));
         dk_raw_file_id := raw_file_id; dk_binning := binning;
         dk_read_speed := read_speed |} in
    Ok (tt, {| raw_files := raw_files db; flats := flats db;
               darks := darks db ++ [row]; science := science db;
               reduced_data := reduced_data db |}).

Definition add_dark (raw_file_id : Z) (binning : string)
    (read_speed : option string) : M world unit :=
  execute (insert_or_ignore_darks raw_file_id binning read_speed).

(** [INSERT INTO science (...)]; [raw_file_id] and [unique_key] are UNIQUE. *)
Definition insert_science (raw_file_id : Z) (unique_key object_name date : string)
    (db : database) : result (Z * database) :=
  if existsb (fun r => Z.eqb (sc_raw_file_id r) raw_file_id
                       || String.eqb (sc_unique_key r) unique_key) (science db)
  then Raise IntegrityError
  else
    let id := next_rowid (map sc_id (science db)) in
    let row :=
      {| sc_id := id; sc_raw_file_id := raw_file_id;
         sc_unique_key := unique_key; sc_object_name := object_name;
         sc_date := date |} in
    Ok (id, {| raw_files := raw_files db; flats := flats db;
               darks := darks db; science := science db ++ [row];
               reduced_data := reduced_data db |}).

Definition add_science (raw_file_id : Z) (object_name date : string)
    : M world (option Z) :=
  let unique_key := (object_name ++ "__" ++ date)%string in
  found ← query (fun db =>
    existsb (fun r => String.eqb (sc_unique_key r) unique_key) (science db));
  if found : bool then
    _ ← print ("Science entry with unique_key " ++ unique_key
               ++ " already exists.")%string;
    mret None
  else
    lastrowid ← execute (insert_science raw_file_id unique_key object_name date);
    mret (Some lastrowid).

(** [INSERT OR IGNORE INTO reduced_data (...)]; both columns are UNIQUE. *)
Definition insert_or_ignore_reduced_data (science_unique_key reduced_path : string)
    (db : database) : result (unit * database) :=
  if existsb (fun r => String.eqb (rd_science_unique_key r) science_unique_key
                       || String.eqb (rd_reduced_path r) reduced_path)
             (reduced_data db)
  then Ok (tt, db)
  else
    let row :=
      {| rd_id := next_rowid (map rd_id (reduced_data db));
         rd_science_unique_key := science_unique_key;
         rd_reduced_path := reduced_path |} in
    Ok (tt, {| raw_files := raw_files db; flats := flats db;
               darks := darks db; science := science db;
               reduced_data := reduced_data db ++ [row] |}).

Definition add_reduced_data (science_unique_key reduced_path : string)
    : M world unit :=
  execute (insert_or_ignore_reduced_data science_unique_key reduced_path).

(** [science LEFT JOIN reduced_data ON science.unique_key =
    reduced_data.science_unique_key]: each science row with every reduced row
    of its key, or once with a NULL-filled right side. *)
Definition left_join_reduced (db : database)
    : list (science_row * option reduced_data_row) :=
  flat_map (fun s =>
    match List.filter (fun r => String.eqb (sc_unique_key s)
                                           (rd_science_unique_key r))
                      (reduced_data db) with
    | [] => [(s, None)]
    | matches => map (fun r => (s, Some r)) matches
    end) (science db).

(** The data frame's one column [unique_key], as a list. *)
Definition get_unreduced_science_files : M world (list string) :=
  query (fun db =>
    map (fun row => sc_unique_key (fst row))
        (List.filter (fun row => match snd row with
                                 | None => true      (* reduced_data.id IS NULL *)
                                 | Some _ => false
                                 end)
                     (left_join_reduced db))).

(** [science s JOIN raw_files rf ON s.raw_file_id = rf.id WHERE
    s.unique_key = ?] *)
Definition science_join_raw (science_id : string) (db : database)
    : list raw_files_row :=
  flat_map (fun s =>
    if String.eqb (sc_unique_key s) science_id
    then List.filter (fun rf => Z.eqb (sc_raw_file_id s) (rf_id rf)) (raw_files db)
    else []) (science db).

(** [SELECT rf.* FROM flats f JOIN raw_files rf ON f.raw_file_id = rf.id
    WHERE f.binning = ? AND f.read_speed = ? AND f.filter = ?] *)
Definition flats_query (binning : string) (read_speed filter_name : option string)
    (db : database) : list raw_files_row :=
  flat_map (fun f =>
    if String.eqb (fl_binning f) binning
       && sql_eq (fl_read_speed f) read_speed
       && sql_eq (fl_filter f) filter_name
    then List.filter (fun rf => Z.eqb (fl_raw_file_id f) (rf_id rf)) (raw_files db)
    else []) (flats db).

(** [SELECT rf.* FROM darks d JOIN raw_files rf ON d.raw_file_id = rf.id
    WHERE d.binning = ? AND d.read_speed = ?] *)
Definition darks_query (binning : string) (read_speed : option string)
    (db : database) : list raw_files_row :=
  flat_map (fun d =>
    if String.eqb (dk_binning d) binning
       && sql_eq (dk_read_speed d) read_speed
    then List.filter (fun rf => Z.eqb (dk_raw_file_id d) (rf_id rf)) (raw_files db)
    else []) (darks db).

(** Returns [None] (a bare [return]) or the triple
    [(science_raw_path, flats_df, darks_df)]. *)
Definition get_files_for_science (science_id : string)
    : M world (option (string * list raw_files_row * list raw_files_row)) :=
  row ← query (fun db => head (map rf_path (science_join_raw science_id db)));
  match row with
  | None => lift (Raise TypeError)      (* unpacking the [None] of fetchone *)
  | Some science_raw_path =>
      result ← query (fun db =>
        head (map (fun rf => (rf_binning rf, rf_read_speed rf, rf_filter rf))
                  (science_join_raw science_id db)));
      match result with
      | None =>
          _ ← print ("No science file with id " ++ science_id)%string;
          mret None
      | Some (binning, read_speed, filter_name) =>
          flats_df ← query (flats_query binning read_speed filter_name);
          darks_df ← query (darks_query binning read_speed);
          mret (Some (science_raw_path, flats_df, darks_df))
      end
  end.

(** ** database.py: register_fits_files *)

(** What [fits.open] does with one file of the directory listing: it raises,
    with the message [err], or yields the primary header. *)
Inductive fits_open :=
  | Unreadable (err : string)
  | Readable (h : header).

(** The body of the [for] loop. [mret tt] is where the loop goes on to the
    next file; an exception leaves the loop and the function. *)
Definition register_fits_file (fits_file : string) (opened : fits_open)
    : M world unit :=
  match opened with
  | Unreadable err =>
      print ("Error reading " ++ fits_file ++ ": " ++ err)%string
  | Readable h =>
      cdelt1 ← lift (py_int (CDELT1 h));
      cdelt2 ← lift (py_int (CDELT2 h));
      let info :=
        {| fi_path := fits_file;
           fi_binning := (str_of_int cdelt1 ++ "x" ++ str_of_int cdelt2)%string;
           fi_filter := INS_FILT1_NAME h;
           fi_category := DPR_CATG h;
           fi_type := DPR_TYPE h;
           fi_mjd := MJD_OBS h;
           fi_exposure_time := EXPTIME h;
           fi_read_speed := DET_READ_SPEED h;
           fi_object_name := OBJECT h;
           fi_date := DATE h |} in
      raw_file_id ← add_raw_file info;
      match raw_file_id with
      | None => mret tt
      | Some raw_file_id =>
          if py_eq (fi_category info) "CALIB" then
            match fi_type info with
            | None => lift (Raise TypeError)   (* ['FLAT' in None] *)
            | Some ty =>
                if contains "FLAT" ty then
                  add_flat raw_file_id (fi_binning info) (fi_filter info)
                           (fi_read_speed info)
                else if String.eqb ty "DARK" then
                  add_dark raw_file_id (fi_binning info) (fi_read_speed info)
                else
                  print ("Unknown calibration type '" ++ ty ++ "' for file "
                         ++ fits_file)%string
            end
          else if py_eq (fi_category info) "SCIENCE" then
            match fi_object_name info, fi_date info with
            | Some object_name, Some date =>
                if truthy (Some object_name) && truthy (Some date) then
                  _ ← add_science raw_file_id object_name date;
                  mret tt
                else
                  print ("Missing object_name or date for science file "
                         ++ fits_file)%string
            | _, _ =>
                print ("Missing object_name or date for science file "
                       ++ fits_file)%string
            end
          else
            print ("Unknown category '" ++ str_of_optional (fi_category info)
                   ++ "' for file " ++ fits_file)%string
      end
  end.

(** [register_fits_files(directory, db_path)]: [fits_files] is the listing
    [path.glob('*.fits*')] with what [fits.open] does on each file; the
    initial [conn] is the content of the store at [db_path]. *)
Fixpoint register_fits_files (fits_files : list (string * fits_open))
    : M world unit :=
  match fits_files with
  | [] => mret tt
  | (fits_file, opened) :: rest =>
      _ ← register_fits_file fits_file opened;
      register_fits_files rest
  end.

(** ** Frames and headers used in the examples *)

Definition blank_header : header :=
  {| CDELT1 := None; CDELT2 := None; INS_FILT1_NAME := None; DPR_CATG := None;
     DPR_TYPE := None; MJD_OBS := None; EXPTIME := None;
     DET_READ_SPEED := None; DATE := None; OBJECT := None; REDUC := None |}.

Definition frame (px : image) : hdu :=
  {| hdu_data := px; hdu_header := blank_header |}.

Open Scope float_scope.

(** Three darks, two flats and a science frame of two pixels each. *)
Definition night : gmap string hdu :=
  <["dark1.fits" := frame [2; 4]]> (
  <["dark2.fits" := frame [2; 6]]> (
  <["dark3.fits" := frame [2; 8]]> (
  <["flat1.fits" := frame [10; 10]]> (
  <["flat2.fits" := frame [12; 10]]> (
  <["science.fits" := frame [20; 20]]> ∅))))).

(** One dark, one flat and a science frame; the second pixel of the flat
    receives no light beyond the dark level. *)
Definition vignetted : gmap string hdu :=
  <["dark.fits" := frame [2; 2]]> (
  <["flat.fits" := frame [10; 2]]> (
  <["science.fits" := frame [20; 20]]> ∅)).

(** The same with a flat whose first pixel is not a number. *)
Definition dead_pixel : gmap string hdu :=
  <["dark.fits" := frame [2; 2]]> (
  <["flat.fits" := frame [nan; 6]]> (
  <["science.fits" := frame [20; 20]]> ∅)).

(** One dark whose pixel is the largest binary64 number, one flat and a
    science frame, of one pixel each. *)
Definition saturated : gmap string hdu :=
  <["dark.fits" := frame [0x1.fffffffffffffp+1023]]> (
  <["flat.fits" := frame [10]]> (
  <["science.fits" := frame [20]]> ∅)).

(** Headers of one night: every frame binned 2x2 at the same read speed. *)
Definition calib_header (ty : string) (filter_name : option string) : header :=
  {| CDELT1 := Some (CFloat 2); CDELT2 := Some (CFloat 2);
     INS_FILT1_NAME := filter_name; DPR_CATG := Some "CALIB"%string;
     DPR_TYPE := Some ty; MJD_OBS := Some 60310.5; EXPTIME := Some 10;
     DET_READ_SPEED := Some "200Kps/low_gain"%string;
     DATE := Some "2024-01-01T21:00:00"%string; OBJECT := None;
     REDUC := None |}.

Definition science_header (filter_name : option string) : header :=
  {| CDELT1 := Some (CFloat 2); CDELT2 := Some (CFloat 2);
     INS_FILT1_NAME := filter_name; DPR_CATG := Some "SCIENCE"%string;
     DPR_TYPE := Some "OBJECT"%string; MJD_OBS := Some 60310.75;
     EXPTIME := Some 300;
     DET_READ_SPEED := Some "200Kps/low_gain"%string;
     DATE := Some "2024-01-02T03:00:00"%string;
     OBJECT := Some "NGC1365"%string; REDUC := None |}.

(** A flat whose header has lost its two CDELT cards. *)
Definition unbinned_header : header :=
  {| CDELT1 := None; CDELT2 := None;
     INS_FILT1_NAME := Some "R_SPECIAL"%string; DPR_CATG := Some "CALIB"%string;
     DPR_TYPE := Some "FLAT,SKY"%string; MJD_OBS := Some 60310.5;
     EXPTIME := Some 10; DET_READ_SPEED := Some "200Kps/low_gain"%string;
     DATE := Some "2024-01-01T21:00:00"%string; OBJECT := None;
     REDUC := None |}.

Close Scope float_scope.

(** A calibration frame whose header has no DPR TYPE card. *)
Definition untyped_calib_header : header :=
  {| CDELT1 := Some (CInt 1); CDELT2 := Some (CInt 1);
     INS_FILT1_NAME := None; DPR_CATG := Some "CALIB"%string;
     DPR_TYPE := None; MJD_OBS := None; EXPTIME := None;
     DET_READ_SPEED := Some "200Kps/low_gain"%string;
     DATE := Some "2024-01-01T20:00:00"%string; OBJECT := None;
     REDUC := None |}.

(** A new store and a silent console. *)
Definition fresh : world := {| conn := create_tables; stdout := [] |}.

(** A directory with a science frame, a flat and a dark taken through the
    filter [filter_name] (or with no filter card). *)
Definition directory (filter_name : option string) : list (string * fits_open) :=
  [ ("science.fits", Readable (science_header filter_name));
    ("flat.fits", Readable (calib_header "FLAT,SKY" filter_name));
    ("dark.fits", Readable (calib_header "DARK" None)) ]%string.

(** The catalogue after ingesting such a directory into a new store. *)
Definition catalogue (filter_name : option string) : world :=
  snd (register_fits_files (directory filter_name) fresh).

(** ** What the schema and the ingestion keep true of the tables

    The PRIMARY KEY and UNIQUE constraints of [create_tables], and what the
    FOREIGN KEY clauses and the copied columns of [flats], [darks] and
    [science] mean: the row refers to a raw exposure and repeats its
    parameters. *)
Record consistent (db : database) : Prop := {
  raw_ids_unique : NoDup (map rf_id (raw_files db));
  raw_paths_unique : NoDup (map rf_path (raw_files db));
  flats_raw_unique : NoDup (map fl_raw_file_id (flats db));
  darks_raw_unique : NoDup (map dk_raw_file_id (darks db));
  science_raw_unique : NoDup (map sc_raw_file_id (science db));
  science_keys_unique : NoDup (map sc_unique_key (science db));
  flats_refer : forall f, In f (flats db) ->
    exists rf, In rf (raw_files db) /\ rf_id rf = fl_raw_file_id f
               /\ rf_binning rf = fl_binning f
               /\ rf_read_speed rf = fl_read_speed f
               /\ rf_filter rf = fl_filter f;
  darks_refer : forall d, In d (darks db) ->
    exists rf, In rf (raw_files db) /\ rf_id rf = dk_raw_file_id d
               /\ rf_binning rf = dk_binning d
               /\ rf_read_speed rf = dk_read_speed d;
  science_refer : forall s, In s (science db) ->
    exists rf, In rf (raw_files db) /\ rf_id rf = sc_raw_file_id s
               /\ rf_object_name rf = Some (sc_object_name s)
               /\ rf_date rf = Some (sc_date s)
               /\ sc_unique_key s
                  = (sc_object_name s ++ "__" ++ sc_date s)%string
}.

(** A file of the listing that [register_fits_files] gets through: it does
    not open, or its two CDELT cards go through [int(...)] and, for a CALIB
    frame, the DPR TYPE card is there. *)
Definition ingestible (opened : fits_open) : Prop :=
  match opened with
  | Unreadable _ => True
  | Readable h =>
      (exists cdelt1 cdelt2,
          py_int (CDELT1 h) = Ok cdelt1 /\ py_int (CDELT2 h) = Ok cdelt2)
      /\ (DPR_CATG h = Some "CALIB"%string -> DPR_TYPE h <> None)
  end.

(** No character of the string is the letter x, the separator of the
    binning string. *)
Definition x_free (s : string) : Prop :=
  forall c, In c (list_ascii_of_string s) -> c <> "x"%char.

(** * Properties *)

(** ** Facts of binary64 arithmetic *)

Module Binary64.

Local Open Scope Z_scope.

Lemma is_nan_iff (x : float) : PrimFloat.is_nan x = true <-> x = nan.
Proof.
  unfold PrimFloat.is_nan. rewrite FloatAxioms.eqb_spec. split.
  - intros H. apply Prim2SF_inj. change (Prim2SF nan) with S754_nan.
    destruct (Prim2SF x) as [s|s| |s m e]; try reflexivity; exfalso; revert H.
    + destruct s; discriminate.
    + destruct s; cbn; discriminate.
    + unfold SFeqb, SFcompare. rewrite Z.compare_refl.
      assert (Pos.compare_cont Eq m m = Eq) as -> by apply Pos.compare_refl.
      destruct s; discriminate.
  - intros ->. reflexivity.
Qed.

Lemma sub_nan_r (x : float) : (x - nan)%float = nan.
Proof.
  apply Prim2SF_inj. rewrite sub_spec. change (Prim2SF nan) with S754_nan.
  unfold SF64sub, SFsub. destruct (Prim2SF x); reflexivity.
Qed.

Lemma div_nan_r (x : float) : (x / nan)%float = nan.
Proof.
  apply Prim2SF_inj. rewrite div_spec. change (Prim2SF nan) with S754_nan.
  unfold SF64div, SFdiv. destruct (Prim2SF x); reflexivity.
Qed.

Lemma ltb_nan_l (x : float) : (nan <? x)%float = false.
Proof. rewrite FloatAxioms.ltb_spec. reflexivity. Qed.





End Binary64.

(** ** The order of binary64 numbers *)

Module Order.

Import FloatAxioms.

Lemma SFcompare_total (x y : spec_float) :
  x <> S754_nan -> y <> S754_nan ->
  SFcompare x y = Some Gt -> SFcompare y x = Some Lt.
Proof.
  intros Hx Hy.
  destruct x as [sx|sx| |sx mx ex], y as [sy|sy| |sy my ey];
    try congruence; unfold SFcompare;
    try (destruct sx, sy; congruence);
    try (destruct sx; congruence);
    try (destruct sy; congruence).
  change (PosDef.Pos.compare_cont Eq mx my) with (mx ?= my)%positive.
  change (PosDef.Pos.compare_cont Eq my mx) with (my ?= mx)%positive.
  rewrite (Z.compare_antisym ex ey), (Pos.compare_antisym mx my).
  destruct sx, sy; try congruence;
    destruct (ex ?= ey)%Z; cbn [CompOpp]; try congruence;
    destruct (mx ?= my)%positive; cbn [CompOpp]; congruence.
Qed.

Lemma not_nan (x : float) : PrimFloat.is_nan x = false -> Prim2SF x <> S754_nan.
Proof.
  intros H E. assert (x = nan) as -> by (apply Prim2SF_inj; exact E).
  discriminate.
Qed.

(** On numbers, [<=] is total. *)
Lemma leb_total (x y : float) :
  PrimFloat.is_nan x = false -> PrimFloat.is_nan y = false ->
  (x <=? y)%float = false -> (y <=? x)%float = true.
Proof.
  intros Hx Hy. apply not_nan in Hx, Hy.
  rewrite !leb_spec. unfold SFleb.
  destruct (SFcompare (Prim2SF x) (Prim2SF y)) as [[]|] eqn:E; try discriminate.
  - intros _. now rewrite (SFcompare_total _ _ Hx Hy E).
  - exfalso. destruct (Prim2SF x) as [sx|sx| |sx mx ex],
      (Prim2SF y) as [sy|sy| |sy my ey]; try congruence; discriminate.
Qed.

End Order.

(** ** Sequencing and array access *)

Lemma bind_Ok {A B} (m : result A) (k : A -> result B) (b : B) :
  (a ← m; k a) = Ok b -> exists a, m = Ok a /\ k a = Ok b.
Proof. destruct m as [a|e]; [eauto | discriminate]. Qed.

Lemma lookup_map {A B} (f : A -> B) (l : list A) (i : nat) :
  map f l !! i = f <$> l !! i.
Proof.
  revert i. induction l as [|a l IH]; intros [|i]; simpl; try reflexivity.
  apply IH.
Qed.

Lemma broadcast_length op a b r :
  broadcast op a b = Ok r -> length r = length a.
Proof.
  destruct b as [y|q]; simpl.
  - intros [= <-]. apply length_map.
  - destruct (Nat.eqb_spec (length a) (length q)) as [E|]; [|discriminate].
    intros [= <-]. rewrite length_zip_with. lia.
Qed.

Lemma broadcast_pixel op a b r i x y :
  broadcast op a b = Ok r ->
  a !! i = Some x -> pixel b i = Some y -> r !! i = Some (op x y).
Proof.
  destruct b as [z|q]; simpl.
  - intros [= <-] Ha [= <-]. now rewrite lookup_map, Ha.
  - destruct (Nat.eqb (length a) (length q)); [|discriminate].
    intros [= <-] Ha Hq. now rewrite lookup_zip_with, Ha, Hq.
Qed.

Lemma broadcast_defined op a b r i x :
  broadcast op a b = Ok r -> a !! i = Some x -> is_Some (pixel b i).
Proof.
  destruct b as [z|q]; simpl; [eauto|].
  destruct (Nat.eqb_spec (length a) (length q)) as [E|]; [|discriminate].
  intros _ Ha. apply lookup_lt_is_Some. rewrite <- E.
  apply lookup_lt_is_Some. eauto.
Qed.

(** What a run of [reduce_science_file] that returns has computed. *)
Lemma reduce_science_file_returns sp ffs dfs out fs fs' :
  reduce_science_file sp ffs dfs out fs = (Ok tt, fs') ->
  exists cd nf cl sci diff red h,
    combine_darks fs dfs = Ok cd
    /\ normalized_flat fs ffs cd = Ok nf
    /\ clamp nf = Ok cl
    /\ getdata fs sp = Ok sci
    /\ broadcast PrimFloat.sub sci cd = Ok diff
    /\ broadcast PrimFloat.div diff (Array cl) = Ok red
    /\ getheader fs sp = Ok h
    /\ fs' = writeto out red (set_REDUC "bias sub and flat field" h) fs.
Proof.
  unfold reduce_science_file. cbv zeta.
  destruct (_ ≫= _) as [[red h']|e] eqn:E; [|discriminate]. intros [= <-].
  apply bind_Ok in E as (cd & Hcd & E).
  apply bind_Ok in E as (nf & Hnf & E).
  apply bind_Ok in E as (cl & Hcl & E).
  apply bind_Ok in E as (sci & Hsci & E).
  apply bind_Ok in E as (diff & Hdiff & E).
  apply bind_Ok in E as (red' & Hred & E).
  apply bind_Ok in E as (h & Hh & E).
  injection E as <- <-.
  exists cd, nf, cl, sci, diff, red', h. repeat split; assumption.
Qed.

(** The pixel [i] of the file written, from the pixel of the science frame,
    of the combined dark and of the clamped flat. *)
Lemma reduced_pixel sp ffs dfs out fs fs' cd nf i x :
  reduce_science_file sp ffs dfs out fs = (Ok tt, fs') ->
  combine_darks fs dfs = Ok cd ->
  normalized_flat fs ffs cd = Ok nf ->
  pixel nf i = Some x ->
  exists px cl sci red s d,
    nf = Array px /\ clamp nf = Ok cl
    /\ cl !! i = Some (if (x <? py_1e_8)%float then 1%float else x)
    /\ getdata fs sp = Ok sci /\ sci !! i = Some s /\ pixel cd i = Some d
    /\ getdata fs' out = Ok red
    /\ red !! i = Some ((s - d) /
                        (if (x <? py_1e_8)%float then 1 else x))%float.
Proof.
  intros Hrun Hcd Hnf Hx.
  destruct (reduce_science_file_returns _ _ _ _ _ _ Hrun)
    as (cd' & nf' & cl & sci & diff & red & h & Hcd' & Hnf' & Hcl & Hsci
        & Hdiff & Hred & _ & ->).
  rewrite Hcd in Hcd'. injection Hcd' as <-.
  rewrite Hnf in Hnf'. injection Hnf' as <-.
  destruct nf as [z|px]; [discriminate|]. simpl in Hx, Hcl.
  injection Hcl as <-.
  set (c := fun v : float => if (v <? py_1e_8)%float then 1%float else v) in *.
  assert (Hc : map c px !! i = Some (c x)) by now rewrite lookup_map, Hx.
  assert (Hlen : length red = length diff) by eauto using broadcast_length.
  assert (Hlen' : length diff = length sci) by eauto using broadcast_length.
  assert (Hlc : length diff = length (map c px)).
  { simpl in Hred.
    destruct (Nat.eqb_spec (length diff) (length (map c px))); [easy|discriminate]. }
  assert (is_Some (sci !! i)) as [s Hs].
  { apply lookup_lt_is_Some. rewrite <- Hlen', Hlc.
    apply lookup_lt_is_Some. eauto. }
  destruct (broadcast_defined _ _ _ _ _ _ Hdiff Hs) as [d Hd].
  exists px, (map c px), sci, red, s, d. repeat split; try assumption.
  - unfold getdata, writeto. now rewrite lookup_insert_eq.
  - eapply broadcast_pixel; [exact Hred | | exact Hc].
    eapply broadcast_pixel; eassumption.
Qed.

(** ** numpy: the median *)

Section Sorting.

Local Open Scope float_scope.

Implicit Types (l s : list float).

Lemma insert_sorted_perm x l : insert_sorted x l ≡ₚ x :: l.
Proof.
  induction l as [|y t IH]; [reflexivity|]. cbn [insert_sorted].
  destruct (x <=? y); [reflexivity|]. rewrite IH. apply Permutation_swap.
Qed.

Lemma sort_floats_perm l : sort_floats l ≡ₚ l.
Proof.
  induction l as [|x t IH]; [reflexivity|]. cbn [sort_floats foldr].
  fold (sort_floats t). now rewrite insert_sorted_perm, IH.
Qed.

Lemma insert_sorted_HdRel a x l :
  (a <=? x) = true ->
  HdRel (fun a b => (a <=? b) = true) a l ->
  HdRel (fun a b => (a <=? b) = true) a (insert_sorted x l).
Proof.
  intros Hax Hal. destruct l as [|y t]; cbn [insert_sorted].
  - now constructor.
  - destruct (x <=? y); constructor; [exact Hax|]. now inversion Hal.
Qed.

Lemma insert_sorted_Sorted x l :
  PrimFloat.is_nan x = false ->
  Forall (fun y => PrimFloat.is_nan y = false) l ->
  Sorted (fun a b => (a <=? b) = true) l ->
  Sorted (fun a b => (a <=? b) = true) (insert_sorted x l).
Proof.
  intros Hx Hl Hs. induction l as [|y t IH]; cbn [insert_sorted].
  - repeat constructor.
  - apply Forall_cons in Hl as [Hy Ht]. apply Sorted_inv in Hs as [Hs Hd].
    destruct (x <=? y) eqn:E.
    + constructor; [now constructor | now constructor].
    + constructor; [now apply IH|].
      apply insert_sorted_HdRel; [|exact Hd].
      now apply Order.leb_total.
Qed.

Lemma sort_floats_Sorted l :
  Forall (fun y => PrimFloat.is_nan y = false) l ->
  Sorted (fun a b => (a <=? b) = true) (sort_floats l).
Proof.
  induction l as [|x t IH]; intros Hl; [constructor|].
  apply Forall_cons in Hl as [Hx Ht]. cbn [sort_floats foldr].
  fold (sort_floats t). apply insert_sorted_Sorted; [exact Hx| |now apply IH].
  now rewrite sort_floats_perm.
Qed.

Lemma drop_nan_numbers l : Forall (fun y => PrimFloat.is_nan y = false) (drop_nan l).
Proof.
  apply List.Forall_forall. intros y Hy. apply filter_In in Hy as [_ Hy].
  now apply negb_true_iff in Hy.
Qed.

Lemma drop_nan_rest l :
  exists nans, l ≡ₚ drop_nan l ++ nans
               /\ Forall (fun x => PrimFloat.is_nan x = true) nans.
Proof.
  induction l as [|x t (nans & Hp & Hn)]; [exists []; split; [reflexivity | constructor]|].
  unfold drop_nan in *. cbn [List.filter].
  destruct (PrimFloat.is_nan x) eqn:E; cbn [negb].
  - exists (x :: nans). split; [|now constructor].
    rewrite <- Permutation_middle. now constructor.
  - exists nans. split; [|exact Hn]. cbn [app]. now constructor.
Qed.

(** The sorting routine delivers the ascending sample. *)
Lemma sort_floats_sample l : Median.ascending_sample l (sort_floats (drop_nan l)).
Proof.
  destruct (drop_nan_rest l) as (nans & Hp & Hn).
  split; [|split].
  - exists nans. split; [|exact Hn]. now rewrite sort_floats_perm.
  - rewrite sort_floats_perm. apply drop_nan_numbers.
  - apply sort_floats_Sorted, drop_nan_numbers.
Qed.

Lemma nanmedian1d_median_of l : Median.median_of l (nanmedian1d l).
Proof. exists (sort_floats (drop_nan l)). split; [apply sort_floats_sample | reflexivity]. Qed.

Lemma stack_median_along_stack k l :
  Median.along_stack k l (stack_median k l).
Proof.
  exists (sort_floats (drop_nan l)). split; [apply sort_floats_sample|].
  unfold stack_median. destruct (Nat.ltb k 600); reflexivity.
Qed.

End Sorting.

(** ** reducer.py: the stages on frames of one size *)

Section Stages.

Local Open Scope float_scope.

Implicit Types (fs : gmap string hdu) (stack : list image).

Lemma for_each_Forall2 {A B} (f : A -> result B) (l : list A) (bs : list B) :
  Forall2 (fun a b => f a = Ok b) l bs -> for_each f l = Ok bs.
Proof.
  induction 1 as [|a b l bs Hab _ IH]; [reflexivity|].
  cbn [for_each]. now rewrite Hab, IH.
Qed.

Lemma nanmedian_axis0_frames stack n :
  stack <> [] -> Forall (fun a => length a = n) stack ->
  nanmedian_axis0 stack
  = Ok (Array (map (fun i => stack_median (length stack) (column i stack))
                   (seq 0 n))).
Proof.
  intros Hne Hall. destruct stack as [|a rest]; [congruence|].
  apply Forall_cons in Hall as [Ha Hrest].
  unfold nanmedian_axis0.
  replace (forallb (fun b : image => Nat.eqb (length b) (length a)) rest) with true.
  - now rewrite Ha.
  - symmetry. apply forallb_forall. intros b Hb. apply Nat.eqb_eq.
    rewrite List.Forall_forall in Hrest. rewrite Ha. now apply Hrest.
Qed.

Lemma lookup_map_seq {A} (g : nat -> A) (n i : nat) (x : A) :
  map g (seq 0 n) !! i = Some x -> (i < n)%nat /\ x = g i.
Proof.
  rewrite lookup_map. intros H.
  destruct (seq 0 n !! i) as [j|] eqn:E; [|discriminate].
  apply lookup_seq in E as [-> Hi]. injection H as <-. now split.
Qed.

Lemma nth_lookup_nan (a : image) (i : nat) (x : float) :
  a !! i = Some x -> nth i a nan = x.
Proof.
  revert i. induction a as [|y t IH]; intros [|i]; simpl; try discriminate.
  - now intros [= <-].
  - apply IH.
Qed.

Lemma nth_zip_with_sub (a q : image) (i : nat) :
  (i < length a)%nat -> (i < length q)%nat ->
  nth i (zip_with PrimFloat.sub a q) nan = nth i a nan - nth i q nan.
Proof.
  revert q i. induction a as [|x a IH]; intros [|y q] [|i]; simpl; try lia;
    try reflexivity.
  intros Ha Hq. apply IH; lia.
Qed.

(** "load and subtract dark from each flat" on frames of the combined
    dark's size. *)
Lemma flats_minus_dark fs flat_files flats cd :
  Forall2 (fun p a => getdata fs p = Ok a) flat_files flats ->
  Forall (fun a => length a = length cd) flats ->
  for_each (fun flat => d ← getdata fs flat;
                        broadcast PrimFloat.sub d (Array cd)) flat_files
  = Ok (map (fun a => zip_with PrimFloat.sub a cd) flats).
Proof.
  induction 1 as [|p a l bs Hpa _ IH]; intros Hall; [reflexivity|].
  apply Forall_cons in Hall as [Ha Hbs].
  cbn [for_each]. rewrite Hpa, (IH Hbs). cbn [mbind result_bind broadcast].
  now rewrite Ha, Nat.eqb_refl.
Qed.

Lemma column_flats_minus_dark flats cd i :
  Forall (fun a => length a = length cd) flats -> (i < length cd)%nat ->
  column i (map (fun a => zip_with PrimFloat.sub a cd) flats)
  = map (fun a => nth i a nan - nth i cd nan) flats.
Proof.
  intros Hall Hi. unfold column. rewrite map_map.
  apply map_ext_in. intros a Ha. rewrite List.Forall_forall in Hall.
  apply nth_zip_with_sub; [rewrite (Hall a Ha)|]; exact Hi.
Qed.

End Stages.

(** ** reducer.py: the reduction *)

Section Reduction.

Local Open Scope float_scope.

(** C2, as the code has it. On frames that numpy holds as float64, all of
    the science frame's size, with at least one dark and one flat, the call
    returns and has computed, pixel by pixel: the combined dark [cd], the
    median along the dark stack; the flats minus [cd]; the combined flat
    [cf], the median along the stack of these; [m], the median of the
    numbers in [cf]; and it writes, under the science header with REDUC set,
    the science frame minus [cd], divided by [cf / m] where that quotient is
    not below 1e-8 and by 1 where it is. The median along a stack of fewer
    than 600 frames is taken as numpy takes it: of the numbers at the pixel
    in ascending order, the lower and the upper middle one are added and the
    sum is halved, also where the two are one value; from 600 frames on it
    is the median. The worked example evaluates in binary64 to the stated
    values. *)
Theorem reduce_science_file_computes :
  (forall sp ffs dfs out (fs : gmap string hdu) darks flats sci h n,
     Forall2 (fun p a => getdata fs p = Ok a) dfs darks ->
     Forall2 (fun p a => getdata fs p = Ok a) ffs flats ->
     getdata fs sp = Ok sci -> getheader fs sp = Ok h ->
     darks <> [] -> flats <> [] ->
     Forall (fun a => length a = n) (sci :: darks ++ flats) ->
     exists cd cf m red,
       combine_darks fs dfs = Ok (Array cd)
       /\ normalized_flat fs ffs (Array cd)
          = Ok (Array (map (fun c => c / m) cf))
       /\ reduce_science_file sp ffs dfs out fs
          = (Ok tt, writeto out red (set_REDUC "bias sub and flat field" h) fs)
       /\ length cd = n /\ length cf = n /\ length red = n
       /\ (forall i d, cd !! i = Some d ->
             Median.along_stack (length darks) (column i darks) d)
       /\ (forall i d c, cd !! i = Some d -> cf !! i = Some c ->
             Median.along_stack (length flats)
               (map (fun a => nth i a nan - d) flats) c)
       /\ Median.median_of cf m
       /\ (forall i s d c,
             sci !! i = Some s -> cd !! i = Some d -> cf !! i = Some c ->
             red !! i
             = Some ((s - d) / (if c / m <? py_1e_8 then 1 else c / m))))
  /\ nanmedian_axis0 [[2; 4]; [2; 6]; [2; 8]] = Ok (Array [2; 6])
  /\ combine_darks night ["dark1.fits"; "dark2.fits"; "dark3.fits"]
     = Ok (Array [2; 6])
  /\ for_each (fun flat => d ← getdata night flat;
                           broadcast PrimFloat.sub d (Array [2; 6]))
              ["flat1.fits"; "flat2.fits"]
     = Ok [[8; 4]; [10; 4]]
  /\ nanmedian_axis0 [[8; 4]; [10; 4]] = Ok (Array [9; 4])
  /\ nanmedian (Array [9; 4]) = 6.5
  /\ normalized_flat night ["flat1.fits"; "flat2.fits"] (Array [2; 6])
     = Ok (Array [9 / 6.5; 4 / 6.5])
  /\ reduce_science_file "science.fits" ["flat1.fits"; "flat2.fits"]
       ["dark1.fits"; "dark2.fits"; "dark3.fits"] "reduced.fits" night
     = (Ok tt,
        <["reduced.fits" :=
            {| hdu_data := [(20 - 2) / (9 / 6.5); (20 - 6) / (4 / 6.5)];
               hdu_header := set_REDUC "bias sub and flat field" blank_header |}]>
          night).
Proof.
  split; [|repeat split; vm_compute; reflexivity].
  intros sp ffs dfs out fs darks flats sci h n.
  intros Hdarks Hflats Hsci Hh Hd Hf Hall.
  apply Forall_cons in Hall as [Lsci Hall].
  apply Forall_app in Hall as [Ldarks Lflats].
  set (cd := map (fun i => stack_median (length darks) (column i darks)) (seq 0 n)).
  set (flats' := map (fun a => zip_with PrimFloat.sub a cd) flats).
  set (cf := map (fun i => stack_median (length flats') (column i flats')) (seq 0 n)).
  set (m := nanmedian1d cf).
  set (c1 := fun x : float => if x <? py_1e_8 then 1 else x).
  set (cl := map c1 (map (fun c => c / m) cf)).
  set (red := zip_with PrimFloat.div (zip_with PrimFloat.sub sci cd) cl).
  assert (Lcd : length cd = n) by (unfold cd; now rewrite length_map, length_seq).
  assert (Lcf : length cf = n) by (unfold cf; now rewrite length_map, length_seq).
  assert (Lcl : length cl = n) by (unfold cl; now rewrite !length_map).
  assert (Lflats' : Forall (fun a => length a = length cd) flats).
  { rewrite Lcd. exact Lflats. }
  assert (Hcd : combine_darks fs dfs = Ok (Array cd)).
  { unfold combine_darks. rewrite (for_each_Forall2 _ _ _ Hdarks).
    cbn [mbind result_bind]. now apply nanmedian_axis0_frames. }
  assert (Hnf : normalized_flat fs ffs (Array cd)
                = Ok (Array (map (fun c => c / m) cf))).
  { unfold normalized_flat. rewrite (flats_minus_dark _ _ _ _ Hflats Lflats').
    cbn [mbind result_bind]. fold flats'.
    rewrite (nanmedian_axis0_frames flats' n).
    - reflexivity.
    - unfold flats'. destruct flats; [congruence | discriminate].
    - unfold flats'. apply List.Forall_forall. intros b Hb.
      apply in_map_iff in Hb as (a & <- & Ha).
      rewrite List.Forall_forall in Lflats. rewrite length_zip_with, Lcd.
      rewrite (Lflats a Ha). lia. }
  exists cd, cf, m, red. split; [exact Hcd|]. split; [exact Hnf|].
  split; [|split; [exact Lcd|split; [exact Lcf|split; [|split; [|split; [|split]]]]]].
  - unfold reduce_science_file. rewrite Hcd. cbn [mbind result_bind].
    rewrite Hnf. cbn [mbind result_bind clamp]. rewrite Hsci, Hh.
    cbn [mbind result_bind broadcast].
    replace (Nat.eqb (length sci) (length cd)) with true
      by (symmetry; apply Nat.eqb_eq; congruence).
    cbn [mbind result_bind]. fold c1. fold cl.
    replace (Nat.eqb (length (zip_with PrimFloat.sub sci cd)) (length cl)) with true
      by (symmetry; apply Nat.eqb_eq; rewrite length_zip_with; lia).
    reflexivity.
  - unfold red. rewrite !length_zip_with. lia.
  - intros i d Hi. apply lookup_map_seq in Hi as [_ ->].
    apply stack_median_along_stack.
  - intros i d c Hi Hc. apply lookup_map_seq in Hc as [Hlt ->].
    apply nth_lookup_nan in Hi as <-.
    unfold flats'. rewrite length_map, column_flats_minus_dark; [|exact Lflats'|lia].
    apply stack_median_along_stack.
  - apply nanmedian1d_median_of.
  - intros i s d c Hs Hi Hc. unfold red, cl.
    rewrite !lookup_zip_with, Hs, Hi. cbn [mbind option_bind].
    now rewrite !lookup_map, Hc.
Qed.

Lemma reduce_science_file_computes_witness :
  exists cd cf m red,
    combine_darks night ["dark1.fits"; "dark2.fits"; "dark3.fits"]
    = Ok (Array cd)
    /\ normalized_flat night ["flat1.fits"; "flat2.fits"] (Array cd)
       = Ok (Array (map (fun c => c / m) cf))
    /\ reduce_science_file "science.fits" ["flat1.fits"; "flat2.fits"]
         ["dark1.fits"; "dark2.fits"; "dark3.fits"] "reduced.fits" night
       = (Ok tt,
          writeto "reduced.fits" red
            (set_REDUC "bias sub and flat field" blank_header) night)
    /\ length cd = 2%nat /\ length cf = 2%nat /\ length red = 2%nat
    /\ (forall i d, cd !! i = Some d ->
          Median.along_stack 3 (column i [[2; 4]; [2; 6]; [2; 8]]) d)
    /\ (forall i d c, cd !! i = Some d -> cf !! i = Some c ->
          Median.along_stack 2
            (map (fun a => nth i a nan - d) [[10; 10]; [12; 10]]) c)
    /\ Median.median_of cf m
    /\ (forall i s d c,
          [20; 20] !! i = Some s -> cd !! i = Some d -> cf !! i = Some c ->
          red !! i
          = Some ((s - d) / (if c / m <? py_1e_8 then 1 else c / m))).
Proof.
  apply (proj1 reduce_science_file_computes "science.fits"
           ["flat1.fits"; "flat2.fits"]
           ["dark1.fits"; "dark2.fits"; "dark3.fits"] "reduced.fits" night
           [[2; 4]; [2; 6]; [2; 8]] [[10; 10]; [12; 10]] [20; 20]
           blank_header 2%nat).
  - repeat constructor.
  - repeat constructor.
  - reflexivity.
  - reflexivity.
  - discriminate.
  - discriminate.
  - repeat constructor.
Defined.

(** C2, as stated, fails where the sum of the two middle values overflows.
    The one dark of [saturated] holds the largest binary64 number, which is
    the median of the stack at that pixel; the combined dark is infinite
    there, and the file written holds NaN. *)
Lemma saturated_dark_is_not_its_median :
  getdata saturated "dark.fits" = Ok [0x1.fffffffffffffp+1023]
  /\ (forall m, Median.median_of [0x1.fffffffffffffp+1023] m ->
                m = 0x1.fffffffffffffp+1023)
  /\ combine_darks saturated ["dark.fits"] = Ok (Array [infinity])
  /\ reduce_science_file "science.fits" ["flat.fits"] ["dark.fits"]
       "reduced.fits" saturated
     = (Ok tt,
        <["reduced.fits" :=
            {| hdu_data := [nan];
               hdu_header := set_REDUC "bias sub and flat field" blank_header |}]>
          saturated).
Proof.
  split; [reflexivity|]. split; [|split; vm_compute; reflexivity].
  intros m (s & ((nans & Hp & Hn) & Hs & _) & ->).
  apply Permutation_singleton_l in Hp.
  destruct s as [|x [|y t]]; cbn [app] in Hp.
  - subst nans. apply Forall_cons in Hn as [Hn _]. discriminate.
  - injection Hp as <- _. reflexivity.
  - destruct t, nans; discriminate.
Qed.



(** C10. A NaN pixel of the normalised combined flat is not below 1e-8, so
    the clamp keeps it, and the pixel written at that position is NaN
    whatever the science and dark values are, finite ones included. *)
Theorem nan_flat_pixel_is_kept sp ffs dfs out fs fs' cd nf i x :
  reduce_science_file sp ffs dfs out fs = (Ok tt, fs') ->
  combine_darks fs dfs = Ok cd ->
  normalized_flat fs ffs cd = Ok nf ->
  pixel nf i = Some x ->
  PrimFloat.is_nan x = true ->
  exists cl red r,
    clamp nf = Ok cl /\ cl !! i = Some x
    /\ getdata fs' out = Ok red /\ red !! i = Some r
    /\ PrimFloat.is_nan r = true.
Proof.
  intros Hrun Hcd Hnf Hx Hnan. apply Binary64.is_nan_iff in Hnan as ->.
  destruct (reduced_pixel _ _ _ _ _ _ _ _ _ _ Hrun Hcd Hnf Hx)
    as (px & cl & sci & red & s & d & _ & Hcl & Hi & Hsci & Hs & Hd & Hout & Hred).
  rewrite Binary64.ltb_nan_l in Hi, Hred. rewrite Binary64.div_nan_r in Hred.
  exists cl, red, nan. repeat split; assumption.
Qed.

Lemma nan_flat_pixel_is_kept_witness :
  exists cl red r,
    clamp (Array [nan; 1]) = Ok cl /\ cl !! 0%nat = Some nan
    /\ getdata (snd (reduce_science_file "science.fits" ["flat.fits"]
                       ["dark.fits"] "reduced.fits" dead_pixel)) "reduced.fits"
       = Ok red
    /\ red !! 0%nat = Some r
    /\ PrimFloat.is_nan r = true.
Proof.
  apply (nan_flat_pixel_is_kept "science.fits" ["flat.fits"] ["dark.fits"]
           "reduced.fits" dead_pixel _ (Array [2; 2]) (Array [nan; 1]) 0 nan);
    vm_compute; reflexivity.
Defined.

(** *** No dark frames *)

Lemma map_const {A B} (f : A -> B) (c : B) (l : list A) :
  (forall x, f x = c) -> map f l = replicate (length l) c.
Proof. intros Hf. induction l as [|a l IH]; simpl; [|rewrite Hf, IH]; reflexivity. Qed.

Lemma map_replicate {A B} (f : A -> B) (n : nat) (a : A) :
  map f (replicate n a) = replicate n (f a).
Proof. induction n as [|n IH]; simpl; [|rewrite IH]; reflexivity. Qed.

Lemma nth_replicate_nan (i n : nat) : nth i (replicate n nan) nan = nan.
Proof. revert i. induction n as [|n IH]; intros [|i]; simpl; auto. Qed.

Lemma drop_nan_replicate (n : nat) : drop_nan (replicate n nan) = [].
Proof. induction n as [|n IH]; simpl; [reflexivity | exact IH]. Qed.

Lemma nanmedian1d_replicate (n : nat) : nanmedian1d (replicate n nan) = nan.
Proof. unfold nanmedian1d. now rewrite drop_nan_replicate. Qed.

Lemma stack_median_replicate (k n : nat) : stack_median k (replicate n nan) = nan.
Proof.
  unfold stack_median, nanmedian_small.
  destruct (Nat.ltb k 600); [now rewrite drop_nan_replicate|].
  apply nanmedian1d_replicate.
Qed.

Lemma forallb_replicate {A} (p : A -> bool) (k : nat) (a : A) :
  p a = true -> forallb p (replicate k a) = true.
Proof. intros Hp. induction k as [|k IH]; simpl; [|rewrite Hp, IH]; reflexivity. Qed.

Lemma column_replicate_nan (i k n : nat) :
  column i (replicate k (replicate n nan)) = replicate k nan.
Proof.
  unfold column. induction k as [|k IH]; simpl; [reflexivity|].
  now rewrite nth_replicate_nan, IH.
Qed.

(** The median along a stack of frames that are NaN everywhere. *)
Lemma nanmedian_axis0_nan (k n : nat) :
  nanmedian_axis0 (replicate (S k) (replicate n nan))
  = Ok (Array (replicate n nan)).
Proof.
  change (nanmedian_axis0 (replicate (S k) (replicate n nan))) with
    (if forallb (fun b : image => Nat.eqb (length b) (length (replicate n nan)))
          (replicate k (replicate n nan))
     then Ok (Array (map (fun i => stack_median
                                    (length (replicate (S k) (replicate n nan)))
                                    (column i (replicate (S k) (replicate n nan))))
                         (seq 0 (length (replicate n nan)))))
     else Raise ValueError).
  rewrite forallb_replicate by apply Nat.eqb_refl.
  do 2 f_equal.
  rewrite (map_const _ nan).
  - now rewrite length_seq, length_replicate.
  - intros i. now rewrite column_replicate_nan, stack_median_replicate.
Qed.

(** Every flat minus the scalar NaN. *)
Lemma flats_minus_nan (fs : gmap string hdu) (flat_files : list string) (n : nat) :
  (forall f, f ∈ flat_files ->
     exists fl, fs !! f = Some fl /\ length (hdu_data fl) = n) ->
  for_each (fun flat => d ← getdata fs flat;
                        broadcast PrimFloat.sub d (Scalar nan)) flat_files
  = Ok (replicate (length flat_files) (replicate n nan)).
Proof.
  induction flat_files as [|f l IH]; intros H; [reflexivity|].
  destruct (H f) as (fl & Hf & Hn); [left|].
  assert (Hget : getdata fs f = Ok (hdu_data fl)) by (unfold getdata; now rewrite Hf).
  cbn [for_each]. rewrite Hget.
  rewrite IH by (intros g Hg; apply H; now right).
  cbn [mbind result_bind broadcast length replicate].
  do 2 f_equal. rewrite <- Hn. apply map_const, Binary64.sub_nan_r.
Qed.

(** C4, as the code has it. Nothing checks the dark list: with no dark
    frame the combined dark is the scalar NaN, and with at least one flat,
    every flat being readable and of the science frame's size, the call
    returns and writes the output file, all of whose pixels are NaN. *)
Theorem no_darks_writes_nan sp ffs out (fs : gmap string hdu) sci :
  ffs <> [] ->
  fs !! sp = Some sci ->
  (forall f, f ∈ ffs ->
     exists fl, fs !! f = Some fl
                /\ length (hdu_data fl) = length (hdu_data sci)) ->
  reduce_science_file sp ffs [] out fs
  = (Ok tt,
     writeto out (replicate (length (hdu_data sci)) nan)
       (set_REDUC "bias sub and flat field" (hdu_header sci)) fs).
Proof.
  intros Hne Hsci Hflats.
  set (n := length (hdu_data sci)) in *.
  assert (Hnf : normalized_flat fs ffs (Scalar nan)
                = Ok (Array (replicate n nan))).
  { unfold normalized_flat. rewrite (flats_minus_nan fs ffs n Hflats).
    destruct ffs as [|f l]; [congruence|].
    cbn [mbind result_bind length]. rewrite nanmedian_axis0_nan.
    cbn [mbind result_bind idiv nanmedian]. rewrite nanmedian1d_replicate.
    do 2 f_equal. rewrite (map_const _ nan) by apply Binary64.div_nan_r.
    now rewrite length_replicate. }
  unfold reduce_science_file.
  change (combine_darks fs []) with (Ok (Scalar nan)).
  cbn [mbind result_bind]. rewrite Hnf.
  cbn [mbind result_bind clamp]. rewrite map_replicate.
  change (if nan <? py_1e_8 then 1 else nan) with nan.
  assert (Hget : getdata fs sp = Ok (hdu_data sci))
    by (unfold getdata; now rewrite Hsci).
  assert (Hhdr : getheader fs sp = Ok (hdu_header sci))
    by (unfold getheader; now rewrite Hsci).
  rewrite Hget, Hhdr. cbn [mbind result_bind broadcast].
  rewrite (map_const _ nan) by apply Binary64.sub_nan_r. fold n.
  cbn [mbind result_bind]. rewrite Nat.eqb_refl, zip_with_replicate.
  reflexivity.
Qed.

Lemma no_darks_writes_nan_witness :
  reduce_science_file "science.fits" ["flat1.fits"; "flat2.fits"] []
    "reduced.fits" night
  = (Ok tt,
     writeto "reduced.fits" (replicate 2 nan)
       (set_REDUC "bias sub and flat field" blank_header) night).
Proof.
  apply (no_darks_writes_nan "science.fits" ["flat1.fits"; "flat2.fits"]
           "reduced.fits" night (frame [20; 20])).
  - discriminate.
  - reflexivity.
  - intros f Hf. apply list_elem_of_In in Hf.
    destruct Hf as [<- | [<- | []]]; eexists; split; reflexivity.
Defined.

(** With no flat either, [combined_flat] is a numpy scalar and the item
    assignment of the clamp raises; nothing is written. *)
Example no_darks_no_flats_raises :
  reduce_science_file "science.fits" [] [] "reduced.fits" night
  = (Raise TypeError, night).
Proof. vm_compute. reflexivity. Qed.

(** C4, as stated, fails: with the frames of [night] and no dark the call
    does not raise, and a file that did not exist is written. *)
Lemma no_darks_is_not_refused :
  night !! "reduced.fits" = None
  /\ reduce_science_file "science.fits" ["flat1.fits"; "flat2.fits"] []
       "reduced.fits" night
     = (Ok tt,
        <["reduced.fits" :=
            {| hdu_data := [nan; nan];
               hdu_header := set_REDUC "bias sub and flat field" blank_header |}]>
          night).
Proof. split; vm_compute; reflexivity. Qed.


End Reduction.

(** ** database.py: the store *)

Section Store.

Implicit Types (w : world) (db : database).

(** *** Unreduced science *)

Lemma matching_reduced_In db s r :
  In r (List.filter (fun r => String.eqb (sc_unique_key s) (rd_science_unique_key r))
                    (reduced_data db)) <->
  In r (reduced_data db) /\ rd_science_unique_key r = sc_unique_key s.
Proof. rewrite filter_In, String.eqb_eq. intuition congruence. Qed.

Lemma left_join_reduced_In db s o :
  In (s, o) (left_join_reduced db) <->
  In s (science db)
  /\ match o with
     | None => forall r, In r (reduced_data db) ->
                         rd_science_unique_key r <> sc_unique_key s
     | Some r => In r (reduced_data db)
                 /\ rd_science_unique_key r = sc_unique_key s
     end.
Proof.
  unfold left_join_reduced. rewrite in_flat_map. split.
  - intros (s' & Hs' & Hin). pose proof (matching_reduced_In db s') as Hq.
    destruct (List.filter _ (reduced_data db)) as [|m ms].
    + simpl in Hin. destruct Hin as [[= <- <-]|[]]. split; [assumption|].
      intros r Hr Hk. apply (Hq r). auto.
    + apply in_map_iff in Hin as (r & [= <- <-] & Hr).
      split; [assumption|]. now apply Hq.
  - intros [Hs Ho]. exists s. split; [assumption|].
    pose proof (matching_reduced_In db s) as Hq.
    destruct (List.filter _ (reduced_data db)) as [|m ms].
    + destruct o as [r|]; [|now left].
      exfalso. now apply (Hq r).
    + destruct o as [r|].
      * apply in_map_iff. exists r. split; [reflexivity|]. now apply Hq.
      * exfalso. apply (Ho m); apply (Hq m); now left.
Qed.

(** C9. [get_unreduced_science_files] returns, without touching the store,
    exactly the unique keys of the science rows that have no row in
    [reduced_data]: a key with a reduced row is left out, every other science
    key is listed. *)
Theorem get_unreduced_science_files_anti_join w :
  exists keys,
    get_unreduced_science_files w = (Ok keys, w)
    /\ forall k,
         In k keys <->
         (exists s, In s (science (conn w)) /\ sc_unique_key s = k)
         /\ ~ (exists r, In r (reduced_data (conn w))
                         /\ rd_science_unique_key r = k).
Proof.
  eexists. split; [reflexivity|]. intros k.
  rewrite in_map_iff. split.
  - intros ([s o] & <- & Hin). apply filter_In in Hin as [Hin Ho].
    destruct o as [r|]; [discriminate|].
    apply left_join_reduced_In in Hin as [Hs Hno]. simpl. split; [eauto|].
    intros (r & Hr & Hk). exact (Hno r Hr Hk).
  - intros [(s & Hs & <-) Hno]. exists (s, None). split; [reflexivity|].
    apply filter_In. split; [|reflexivity].
    apply left_join_reduced_In. split; [assumption|].
    intros r Hr Hk. apply Hno. eauto.
Qed.

(** *** Science rows *)

Local Open Scope string_scope.

(** The three ways [add_science] can go. *)
Lemma add_science_unfold raw_file_id object_name date w :
  add_science raw_file_id object_name date w =
  let unique_key := object_name ++ "__" ++ date in
  if existsb (fun r => String.eqb (sc_unique_key r) unique_key) (science (conn w))
  then (Ok None,
        {| conn := conn w;
           stdout := (stdout w ++ [("Science entry with unique_key " ++ unique_key
                                    ++ " already exists.")%string])%list |})
  else match insert_science raw_file_id unique_key object_name date (conn w) with
       | Ok (id, db) => (Ok (Some id), {| conn := db; stdout := stdout w |})
       | Raise e => (Raise e, w)
       end.
Proof.
  unfold add_science, mbind, M_bind, query, execute, print, mret, M_ret.
  cbv zeta.
  destruct (existsb _ (science (conn w))); [reflexivity|].
  destruct (insert_science _ _ _ _ (conn w)) as [[id db]|e]; reflexivity.
Qed.



(** *** Resolving a science key *)

(** No science row has the key: the first [fetchone()] is [None], unpacking
    it raises, and the "No science file" branch is never reached. *)
Lemma unknown_key_raises w science_id :
  (forall s, In s (science (conn w)) -> sc_unique_key s <> science_id) ->
  get_files_for_science science_id w = (Raise TypeError, w).
Proof.
  intros Hno.
  assert (Hjoin : science_join_raw science_id (conn w) = []).
  { unfold science_join_raw.
    induction (science (conn w)) as [|s l IH]; [reflexivity|]. simpl.
    destruct (String.eqb_spec (sc_unique_key s) science_id) as [E|_].
    - destruct (Hno s (or_introl eq_refl) E).
    - apply IH. intros s' Hs'. apply Hno. now right. }
  unfold get_files_for_science, mbind, M_bind, query. now rewrite Hjoin.
Qed.

(** C6, on the code. For a key that no science row has, the call ends in a
    [TypeError] and prints nothing; the store is unchanged. *)
Theorem get_files_for_science_unknown_key :
  get_files_for_science "NGC0000__2024-01-02T03:00:00"
    (catalogue (Some "R_SPECIAL"))
  = (Raise TypeError, catalogue (Some "R_SPECIAL"))
  /\ stdout (catalogue (Some "R_SPECIAL")) = [].
Proof.
  split; [|reflexivity]. apply unknown_key_raises.
  intros s Hs. vm_compute in Hs. destruct Hs as [<- | []]. discriminate.
Qed.

Lemma sql_eq_true (a b : option string) :
  sql_eq a b = true <-> a = b /\ b <> None.
Proof.
  destruct a as [x|], b as [y|]; simpl; try (intuition congruence).
  rewrite String.eqb_eq. intuition congruence.
Qed.

Lemma filter_none {A} (p : A -> bool) (l : list A) :
  (forall y, In y l -> p y = false) -> List.filter p l = [].
Proof.
  induction l as [|a l IH]; intros H; [reflexivity|]. simpl.
  rewrite (H a) by now left. apply IH. intros y Hy. apply H. now right.
Qed.

(** A UNIQUE column selects at most one row. *)
Lemma filter_unique {A K} (f : A -> K) (p : A -> bool) (l : list A) (x : A) :
  NoDup (map f l) -> In x l -> (forall y, p y = true <-> f y = f x) ->
  List.filter p l = [x].
Proof.
  intros Hnd Hx Hp. induction l as [|a l IH]; [destruct Hx|].
  simpl in Hnd. apply NoDup_cons in Hnd as [Ha Hnd]. simpl.
  destruct Hx as [-> | Hx].
  - replace (p x) with true by (symmetry; now apply Hp).
    f_equal. apply filter_none. intros y Hy.
    destruct (p y) eqn:E; [|reflexivity]. exfalso. apply Ha.
    apply Hp in E. rewrite <- E. apply list_elem_of_In, in_map, Hy.
  - replace (p a) with false; [now apply IH|].
    symmetry. destruct (p a) eqn:E; [|reflexivity]. exfalso. apply Ha.
    apply Hp in E. rewrite E. apply list_elem_of_In, in_map, Hx.
Qed.

Lemma flat_map_filter {A B} (p : A -> bool) (g : A -> list B) (l : list A) :
  flat_map (fun y => if p y then g y else []) l = flat_map g (List.filter p l).
Proof.
  induction l as [|a l IH]; [reflexivity|]. simpl.
  destruct (p a); simpl; now rewrite IH.
Qed.

(** Under the UNIQUE constraints the join of a science key with [raw_files]
    is the one raw exposure of that science row. *)
Lemma science_join_raw_unique db s rf :
  NoDup (map sc_unique_key (science db)) ->
  NoDup (map rf_id (raw_files db)) ->
  In s (science db) -> In rf (raw_files db) -> rf_id rf = sc_raw_file_id s ->
  science_join_raw (sc_unique_key s) db = [rf].
Proof.
  intros Hkeys Hids Hs Hrf Hid. unfold science_join_raw.
  rewrite (flat_map_filter (fun s' => String.eqb (sc_unique_key s') (sc_unique_key s))).
  rewrite (filter_unique sc_unique_key _ _ s Hkeys Hs)
    by (intros y; apply String.eqb_eq).
  simpl. rewrite app_nil_r.
  apply (filter_unique rf_id _ _ rf Hids Hrf).
  intros y. rewrite Z.eqb_eq. intuition congruence.
Qed.

Lemma flats_query_In db binning read_speed filter_name r :
  In r (flats_query binning read_speed filter_name db) <->
  exists f, In f (flats db) /\ In r (raw_files db)
            /\ fl_raw_file_id f = rf_id r
            /\ (fl_binning f, fl_read_speed f, fl_filter f)
               = (binning, read_speed, filter_name)
            /\ read_speed <> None /\ filter_name <> None.
Proof.
  unfold flats_query. rewrite in_flat_map. split.
  - intros (f & Hf & Hr).
    destruct (String.eqb_spec (fl_binning f) binning) as [Hb|]; [|destruct Hr].
    destruct (sql_eq (fl_read_speed f) read_speed) eqn:Hs; [|destruct Hr].
    destruct (sql_eq (fl_filter f) filter_name) eqn:Hn; [|destruct Hr].
    simpl in Hr. apply filter_In in Hr as [Hr Hid]. apply Z.eqb_eq in Hid.
    apply sql_eq_true in Hs as [Hs Hs'], Hn as [Hn Hn'].
    exists f. repeat split; try assumption. congruence.
  - intros (f & Hf & Hr & Hid & [= Hb Hs Hn] & Hs' & Hn').
    exists f. split; [assumption|].
    rewrite Hb, String.eqb_refl.
    rewrite (proj2 (sql_eq_true _ _) (conj Hs Hs')).
    rewrite (proj2 (sql_eq_true _ _) (conj Hn Hn')).
    simpl. apply filter_In. split; [assumption|]. now apply Z.eqb_eq.
Qed.

Lemma darks_query_In db binning read_speed r :
  In r (darks_query binning read_speed db) <->
  exists d, In d (darks db) /\ In r (raw_files db)
            /\ dk_raw_file_id d = rf_id r
            /\ (dk_binning d, dk_read_speed d) = (binning, read_speed)
            /\ read_speed <> None.
Proof.
  unfold darks_query. rewrite in_flat_map. split.
  - intros (d & Hd & Hr).
    destruct (String.eqb_spec (dk_binning d) binning) as [Hb|]; [|destruct Hr].
    destruct (sql_eq (dk_read_speed d) read_speed) eqn:Hs; [|destruct Hr].
    simpl in Hr. apply filter_In in Hr as [Hr Hid]. apply Z.eqb_eq in Hid.
    apply sql_eq_true in Hs as [Hs Hs'].
    exists d. repeat split; try assumption. congruence.
  - intros (d & Hd & Hr & Hid & [= Hb Hs] & Hs').
    exists d. split; [assumption|].
    rewrite Hb, String.eqb_refl.
    rewrite (proj2 (sql_eq_true _ _) (conj Hs Hs')).
    simpl. apply filter_In. split; [assumption|]. now apply Z.eqb_eq.
Qed.

(** C1, as the code has it. For the key of a science row that references a
    raw exposure, the call returns that exposure's path with exactly the raw
    exposures of the flats whose (binning, read_speed, filter) equal the
    science exposure's and exactly those of the darks whose (binning,
    read_speed) equal it, the comparison being SQL's: a science exposure
    whose read_speed is NULL matches no flat and no dark, and one whose
    filter is NULL matches no flat, a flat with NULL there included. The
    filter plays no part in the matching of darks. The two sets may be
    empty; the store is left as it was. *)
Theorem get_files_for_science_matches w s rf :
  NoDup (map sc_unique_key (science (conn w))) ->
  NoDup (map rf_id (raw_files (conn w))) ->
  In s (science (conn w)) ->
  In rf (raw_files (conn w)) ->
  rf_id rf = sc_raw_file_id s ->
  exists flats_df darks_df,
    get_files_for_science (sc_unique_key s) w
    = (Ok (Some (rf_path rf, flats_df, darks_df)), w)
    /\ (forall r,
          In r flats_df <->
          exists f, In f (flats (conn w)) /\ In r (raw_files (conn w))
                    /\ fl_raw_file_id f = rf_id r
                    /\ (fl_binning f, fl_read_speed f, fl_filter f)
                       = (rf_binning rf, rf_read_speed rf, rf_filter rf)
                    /\ rf_read_speed rf <> None /\ rf_filter rf <> None)
    /\ (forall r,
          In r darks_df <->
          exists d, In d (darks (conn w)) /\ In r (raw_files (conn w))
                    /\ dk_raw_file_id d = rf_id r
                    /\ (dk_binning d, dk_read_speed d)
                       = (rf_binning rf, rf_read_speed rf)
                    /\ rf_read_speed rf <> None).
Proof.
  intros Hkeys Hids Hs Hrf Hid.
  pose proof (science_join_raw_unique _ _ _ Hkeys Hids Hs Hrf Hid) as Hjoin.
  exists (flats_query (rf_binning rf) (rf_read_speed rf) (rf_filter rf) (conn w)),
         (darks_query (rf_binning rf) (rf_read_speed rf) (conn w)).
  split; [|split].
  - unfold get_files_for_science, mbind, M_bind, query, mret, M_ret.
    rewrite Hjoin. simpl. now rewrite Hjoin.
  - intros r. apply flats_query_In.
  - intros r. apply darks_query_In.
Qed.

Lemma get_files_for_science_matches_witness :
  exists flats_df darks_df,
    get_files_for_science "NGC1365__2024-01-02T03:00:00"
      (catalogue (Some "R_SPECIAL"))
    = (Ok (Some ("science.fits", flats_df, darks_df)),
       catalogue (Some "R_SPECIAL")).
Proof.
  destruct (get_files_for_science_matches (catalogue (Some "R_SPECIAL"))
              {| sc_id := 1; sc_raw_file_id := 1;
                 sc_unique_key := "NGC1365__2024-01-02T03:00:00";
                 sc_object_name := "NGC1365";
                 sc_date := "2024-01-02T03:00:00" |}
              {| rf_id := 1; rf_path := "science.fits"; rf_binning := "2x2";
                 rf_filter := Some "R_SPECIAL";
                 rf_category := Some "SCIENCE"; rf_type := Some "OBJECT";
                 rf_mjd := Some 60310.75%float;
                 rf_exposure_time := Some 300%float;
                 rf_read_speed := Some "200Kps/low_gain";
                 rf_object_name := Some "NGC1365";
                 rf_date := Some "2024-01-02T03:00:00" |})
    as (flats_df & darks_df & H & _).
  - vm_compute. apply NoDup_singleton.
  - vm_compute. apply (bool_decide_unpack _). vm_compute. exact I.
  - vm_compute. left. reflexivity.
  - vm_compute. left. reflexivity.
  - reflexivity.
  - exists flats_df, darks_df. exact H.
Defined.

(** C1, as stated, fails. A science frame and a flat ingested from headers
    without a filter card agree on (binning, read_speed, filter), the filter
    being NULL on both sides, and the flat is not returned. The dark of the
    same binning and read speed is. *)
Lemma null_filter_matches_no_flat :
  map (fun f => (fl_raw_file_id f, fl_binning f, fl_read_speed f, fl_filter f))
      (flats (conn (catalogue None)))
  = [(2%Z, "2x2", Some "200Kps/low_gain", None)]
  /\ map (fun rf => (rf_id rf, rf_path rf, rf_binning rf, rf_read_speed rf,
                     rf_filter rf))
         (raw_files (conn (catalogue None)))
     = [(1%Z, "science.fits", "2x2", Some "200Kps/low_gain", None);
        (2%Z, "flat.fits", "2x2", Some "200Kps/low_gain", None);
        (3%Z, "dark.fits", "2x2", Some "200Kps/low_gain", None)]
  /\ get_files_for_science "NGC1365__2024-01-02T03:00:00" (catalogue None)
     = (Ok (Some ("science.fits", [],
                  darks_query "2x2" (Some "200Kps/low_gain")
                              (conn (catalogue None)))),
        catalogue None)
  /\ map rf_path (darks_query "2x2" (Some "200Kps/low_gain")
                              (conn (catalogue None)))
     = ["dark.fits"].
Proof. repeat split; vm_compute; reflexivity. Qed.

(** *** Ingestion *)

Lemma add_raw_file_unfold info w :
  add_raw_file info w =
  if existsb (fun r => String.eqb (rf_path r) (fi_path info)) (raw_files (conn w))
  then (Ok None, w)
  else
    match insert_raw_files info (conn w) with
    | Ok (id, db) => (Ok (Some id), {| conn := db; stdout := stdout w |})
    | Raise e => (Raise e, w)
    end.
Proof.
  unfold add_raw_file, raw_file_exists, mbind, M_bind, query, execute, mret, M_ret.
  destruct (existsb _ (raw_files (conn w))); [reflexivity|].
  destruct (insert_raw_files info (conn w)) as [[id db]|e]; reflexivity.
Qed.

(** Only [add_raw_file] writes to [raw_files]. *)
Lemma add_flat_raw_files id b f r w :
  raw_files (conn (snd (add_flat id b f r w))) = raw_files (conn w).
Proof.
  unfold add_flat, execute, insert_or_ignore_flats.
  destruct (existsb _ (flats (conn w))); reflexivity.
Qed.

Lemma add_dark_raw_files id b r w :
  raw_files (conn (snd (add_dark id b r w))) = raw_files (conn w).
Proof.
  unfold add_dark, execute, insert_or_ignore_darks.
  destruct (existsb _ (darks (conn w))); reflexivity.
Qed.

Lemma add_science_raw_files id o d w :
  raw_files (conn (snd (add_science id o d w))) = raw_files (conn w).
Proof.
  rewrite add_science_unfold. cbv zeta.
  destruct (existsb _ (science (conn w))); [reflexivity|].
  unfold insert_science. destruct (existsb _ (science (conn w))); reflexivity.
Qed.


(** What one turn of the loop that returns has done to [raw_files]: the path
    was there and nothing at all changed, or it was not and one row with that
    path was appended. *)
Lemma register_fits_file_returns fits_file h w w1 :
  register_fits_file fits_file (Readable h) w = (Ok tt, w1) ->
  (exists cdelt1 cdelt2,
      py_int (CDELT1 h) = Ok cdelt1 /\ py_int (CDELT2 h) = Ok cdelt2)
  /\ ((existsb (fun r => String.eqb (rf_path r) fits_file) (raw_files (conn w))
       = true /\ w1 = w)
      \/ (existsb (fun r => String.eqb (rf_path r) fits_file) (raw_files (conn w))
          = false
          /\ exists row, rf_path row = fits_file
                         /\ raw_files (conn w1) = (raw_files (conn w) ++ [row])%list)).
Proof.
  cbn [register_fits_file]. unfold mbind, M_bind, lift, mret, M_ret.
  destruct (py_int (CDELT1 h)) as [c1|]; [|discriminate].
  destruct (py_int (CDELT2 h)) as [c2|]; [|discriminate].
  rewrite add_raw_file_unfold. cbn [fi_path fi_category fi_type fi_object_name
    fi_date fi_binning fi_filter fi_read_speed].
  destruct (existsb _ (raw_files (conn w))) eqn:E.
  - intros [= <-]. split; eauto.
  - unfold insert_raw_files. cbn [fi_path]. rewrite E.
    set (w' := {| conn := _; stdout := stdout w |}).
    intros H. split; [eauto|]. right. split; [reflexivity|].
    eexists. split; [|
      assert (Hraw : raw_files (conn w1) = raw_files (conn w'));
      [|rewrite Hraw; reflexivity]].
    { reflexivity. }
    revert H.
    repeat match goal with
    | |- context [if ?b then _ else _] => destruct b
    | |- context [match ?o with Some _ => _ | None => _ end] => destruct o
    end;
    try discriminate;
    try (intros H; apply (f_equal snd) in H; simpl in H; subst w1;
         first [ apply add_flat_raw_files | apply add_dark_raw_files | reflexivity ]).
    all: match goal with
         | |- context [add_science ?id ?o ?d ?w0] =>
             pose proof (add_science_raw_files id o d w0) as Hsc;
             destruct (add_science id o d w0) as [[a|e] w2]; [|discriminate];
             intros [= <-]; exact Hsc
         end.
Qed.

(** A path that is in [raw_files]: [add_raw_file] returns [None] and the
    turn of the loop stops there, whatever the header says beyond CDELT. *)
Lemma register_fits_file_known_path fits_file h w cdelt1 cdelt2 :
  py_int (CDELT1 h) = Ok cdelt1 -> py_int (CDELT2 h) = Ok cdelt2 ->
  existsb (fun r => String.eqb (rf_path r) fits_file) (raw_files (conn w)) = true ->
  register_fits_file fits_file (Readable h) w = (Ok tt, w).
Proof.
  intros H1 H2 E. cbn [register_fits_file].
  unfold mbind, M_bind, lift, mret, M_ret. rewrite H1, H2.
  rewrite add_raw_file_unfold. cbn [fi_path]. now rewrite E.
Qed.

(** C8. Ingesting a path a second time: [add_raw_file] returns [None]
    without raising, the turn of the loop changes neither a table nor the
    console, so no flat, dark or science row is added, and [raw_files] holds
    exactly one row for the path. *)
Theorem reingestion_is_idempotent w fits_file h w1 :
  NoDup (map rf_path (raw_files (conn w))) ->
  register_fits_file fits_file (Readable h) w = (Ok tt, w1) ->
  (forall info, fi_path info = fits_file -> add_raw_file info w1 = (Ok None, w1))
  /\ register_fits_file fits_file (Readable h) w1 = (Ok tt, w1)
  /\ length (List.filter (fun r => String.eqb (rf_path r) fits_file)
                         (raw_files (conn w1))) = 1%nat.
Proof.
  intros Hnd Hrun.
  destruct (register_fits_file_returns _ _ _ _ Hrun)
    as [(c1 & c2 & H1 & H2) Hraw].
  assert (Hin : existsb (fun r => String.eqb (rf_path r) fits_file)
                        (raw_files (conn w1)) = true
                /\ NoDup (map rf_path (raw_files (conn w1)))).
  { destruct Hraw as [[E ->] | (E & row & Hrow & ->)]; [now split|]. split.
    - rewrite existsb_app. simpl. rewrite Hrow, String.eqb_refl.
      now rewrite orb_true_r.
    - rewrite map_app. simpl. apply NoDup_app. repeat split.
      + exact Hnd.
      + intros x Hx Hx'. apply list_elem_of_In in Hx, Hx'.
        destruct Hx' as [<- | []].
        apply in_map_iff in Hx as (r & Hr & Hr').
        assert (existsb (fun r => String.eqb (rf_path r) fits_file)
                        (raw_files (conn w)) = true) as E'; [|congruence].
        apply existsb_exists. exists r. split; [assumption|].
        apply String.eqb_eq. congruence.
      + apply NoDup_singleton. }
  destruct Hin as [E Hnd1]. repeat split.
  - intros info <-. rewrite add_raw_file_unfold. now rewrite E.
  - now apply (register_fits_file_known_path _ _ _ c1 c2).
  - apply existsb_exists in E as (x & Hx & Hp). apply String.eqb_eq in Hp.
    rewrite (filter_unique rf_path _ _ x Hnd1 Hx); [reflexivity|].
    intros y. rewrite String.eqb_eq. intuition congruence.
Qed.

Lemma reingestion_is_idempotent_witness :
  let w1 := snd (register_fits_file "flat.fits"
                   (Readable (calib_header "FLAT,SKY" (Some "R_SPECIAL"))) fresh) in
  (forall info, fi_path info = "flat.fits" -> add_raw_file info w1 = (Ok None, w1))
  /\ register_fits_file "flat.fits"
       (Readable (calib_header "FLAT,SKY" (Some "R_SPECIAL"))) w1 = (Ok tt, w1)
  /\ length (List.filter (fun r => String.eqb (rf_path r) "flat.fits")
                         (raw_files (conn w1))) = 1%nat.
Proof.
  apply (reingestion_is_idempotent fresh "flat.fits"
           (calib_header "FLAT,SKY" (Some "R_SPECIAL"))).
  - vm_compute. apply NoDup_nil_2.
  - vm_compute. reflexivity.
Defined.

(** A header whose CDELT1 or CDELT2 does not go through [int(...)] ends the
    loop and the function: nothing is stored for the file or for any file
    after it, and nothing is printed. *)
Lemma register_fits_files_aborts fits_file h rest e w :
  (cdelt1 ← py_int (CDELT1 h); py_int (CDELT2 h)) = Raise e ->
  register_fits_files ((fits_file, Readable h) :: rest) w = (Raise e, w).
Proof.
  intros H. cbn [register_fits_files register_fits_file].
  unfold mbind at 1. unfold M_bind. unfold mbind at 1. unfold M_bind, lift.
  destruct (py_int (CDELT1 h)) as [c1|e1]; simpl in H |- *.
  - unfold mbind at 1. unfold M_bind. now rewrite H.
  - now injection H as <-.
Qed.

(** C5, on the code. A readable flat without CDELT cards, listed before a
    well-formed science frame: the run ends in a [TypeError], without a
    diagnostic, and the science frame is not ingested. *)
Theorem register_fits_files_missing_binning :
  register_fits_files
    [ ("flat.fits", Readable unbinned_header);
      ("science.fits", Readable (science_header (Some "R_SPECIAL"))) ] fresh
  = (Raise TypeError, fresh)
  /\ fst (register_fits_files
            [ ("science.fits", Readable (science_header (Some "R_SPECIAL"))) ]
            fresh) = Ok tt.
Proof. split; vm_compute; reflexivity. Qed.

End Store.

(** ** database.py: what ingestion keeps true *)

Section Ingested.

Implicit Types (w : world) (db : database).

Local Open Scope string_scope.

Lemma consistent_create_tables : consistent create_tables.
Proof.
  constructor; simpl; try apply NoDup_nil_2; intros ? [].
Qed.

(** A new rowid is larger than every rowid in use. *)
Lemma next_rowid_fresh (ids : list Z) : ~ In (next_rowid ids) ids.
Proof.
  assert (H : forall i l x, In x (i :: l) -> (x <= foldr Z.max i l)%Z).
  { intros i l. induction l as [|a l IH]; simpl; intros x Hx.
    - destruct Hx as [<- | []]. lia.
    - destruct Hx as [<- | [<- | Hx]].
      + specialize (IH i (or_introl eq_refl)). lia.
      + lia.
      + specialize (IH x (or_intror Hx)). lia. }
  destruct ids as [|i l]; [intros []|]. intros Hin.
  apply H in Hin. simpl in Hin. lia.
Qed.

Lemma NoDup_map_snoc {A K} (f : A -> K) (l : list A) (x : A) :
  NoDup (map f l) -> (forall y, In y l -> f y <> f x) ->
  NoDup (map f (l ++ [x])).
Proof.
  intros Hnd Hx. rewrite map_app. simpl. apply NoDup_app. repeat split.
  - exact Hnd.
  - intros k Hk Hk'. apply list_elem_of_In in Hk, Hk'.
    destruct Hk' as [<- | []]. apply in_map_iff in Hk as (y & Hy & Hin).
    exact (Hx y Hin Hy).
  - apply NoDup_singleton.
Qed.

Lemma existsb_false {A} (p : A -> bool) (l : list A) :
  existsb p l = false -> forall y, In y l -> p y = false.
Proof.
  intros H y Hy. destruct (p y) eqn:E; [|reflexivity].
  rewrite <- H. symmetry. apply existsb_exists. eauto.
Qed.

(** [INSERT INTO raw_files] *)
Lemma insert_raw_files_consistent info db id db' :
  consistent db -> insert_raw_files info db = Ok (id, db') ->
  consistent db'
  /\ ~ In id (map rf_id (raw_files db))
  /\ exists row,
       raw_files db' = (raw_files db ++ [row])%list
       /\ flats db' = flats db /\ darks db' = darks db
       /\ science db' = science db /\ reduced_data db' = reduced_data db
       /\ rf_id row = id /\ rf_path row = fi_path info
       /\ rf_binning row = fi_binning info
       /\ rf_read_speed row = fi_read_speed info
       /\ rf_filter row = fi_filter info
       /\ rf_object_name row = fi_object_name info
       /\ rf_date row = fi_date info.
Proof.
  intros Hc. unfold insert_raw_files.
  destruct (existsb _ (raw_files db)) eqn:E; [discriminate|].
  intros [= <- <-].
  pose proof (next_rowid_fresh (map rf_id (raw_files db))) as Hfresh.
  split; [|split; [exact Hfresh|]].
  - destruct Hc. constructor; cbn [raw_files flats darks science reduced_data];
      try assumption.
    + apply NoDup_map_snoc; [assumption|]. intros y Hy Heq. apply Hfresh.
      simpl in Heq. rewrite <- Heq. now apply in_map.
    + apply NoDup_map_snoc; [assumption|]. intros y Hy Heq.
      apply (existsb_false _ _ E) in Hy. apply String.eqb_neq in Hy.
      exact (Hy Heq).
    + intros f Hf. destruct (flats_refer0 f Hf) as (rf & Hrf & H).
      exists rf. split; [apply in_or_app; now left | exact H].
    + intros d Hd. destruct (darks_refer0 d Hd) as (rf & Hrf & H).
      exists rf. split; [apply in_or_app; now left | exact H].
    + intros s Hs. destruct (science_refer0 s Hs) as (rf & Hrf & H).
      exists rf. split; [apply in_or_app; now left | exact H].
  - eexists. repeat split.
Qed.

(** [add_flat] for a raw exposure that is in [raw_files] with these
    parameters. *)
Lemma add_flat_consistent id b f r w :
  consistent (conn w) ->
  (exists rf, In rf (raw_files (conn w)) /\ rf_id rf = id /\ rf_binning rf = b
              /\ rf_read_speed rf = r /\ rf_filter rf = f) ->
  consistent (conn (snd (add_flat id b f r w)))
  /\ fst (add_flat id b f r w) = Ok tt.
Proof.
  intros Hc (rf & Hrf & Hid & Hb & Hr & Hf).
  unfold add_flat, execute, insert_or_ignore_flats.
  destruct (existsb _ (flats (conn w))) eqn:E; simpl; [now split|].
  split; [|reflexivity].
  destruct Hc. constructor; cbn [raw_files flats darks science reduced_data];
    try assumption.
  - apply NoDup_map_snoc; [assumption|]. intros y Hy Heq.
    apply (existsb_false _ _ E) in Hy. apply Z.eqb_neq in Hy. exact (Hy Heq).
  - intros x Hx. apply in_app_or in Hx as [Hx | [<- | []]]; [now apply flats_refer0|].
    exists rf. simpl. repeat split; assumption.
Qed.

Lemma add_dark_consistent id b r w :
  consistent (conn w) ->
  (exists rf, In rf (raw_files (conn w)) /\ rf_id rf = id /\ rf_binning rf = b
              /\ rf_read_speed rf = r) ->
  consistent (conn (snd (add_dark id b r w)))
  /\ fst (add_dark id b r w) = Ok tt.
Proof.
  intros Hc (rf & Hrf & Hid & Hb & Hr).
  unfold add_dark, execute, insert_or_ignore_darks.
  destruct (existsb _ (darks (conn w))) eqn:E; simpl; [now split|].
  split; [|reflexivity].
  destruct Hc. constructor; cbn [raw_files flats darks science reduced_data];
    try assumption.
  - apply NoDup_map_snoc; [assumption|]. intros y Hy Heq.
    apply (existsb_false _ _ E) in Hy. apply Z.eqb_neq in Hy. exact (Hy Heq).
  - intros x Hx. apply in_app_or in Hx as [Hx | [<- | []]]; [now apply darks_refer0|].
    exists rf. simpl. repeat split; assumption.
Qed.

(** [add_science] for a raw exposure that is in [raw_files] with this object
    and date; it raises only if a science row refers to that exposure
    already. *)
Lemma add_science_consistent id o d w :
  consistent (conn w) ->
  (exists rf, In rf (raw_files (conn w)) /\ rf_id rf = id
              /\ rf_object_name rf = Some o /\ rf_date rf = Some d) ->
  consistent (conn (snd (add_science id o d w)))
  /\ (~ In id (map sc_raw_file_id (science (conn w))) ->
      exists r, fst (add_science id o d w) = Ok r).
Proof.
  intros Hc (rf & Hrf & Hid & Ho & Hd).
  rewrite add_science_unfold. cbv zeta.
  destruct (existsb _ (science (conn w))) eqn:Ekey; simpl; [split; eauto|].
  unfold insert_science.
  destruct (existsb (fun r => _ || _) (science (conn w))) eqn:E; simpl.
  - split; [assumption|]. intros Hnew. exfalso.
    apply existsb_exists in E as (y & Hy & Hor).
    apply orb_prop in Hor as [Hor | Hor].
    + apply Z.eqb_eq in Hor. apply Hnew. rewrite <- Hor. now apply in_map.
    + apply (existsb_false _ _ Ekey) in Hy. congruence.
  - split; [|eauto].
    destruct Hc. constructor; cbn [raw_files flats darks science reduced_data];
      try assumption.
    + apply NoDup_map_snoc; [assumption|]. intros y Hy Heq.
      apply (existsb_false _ _ E) in Hy. apply orb_false_elim in Hy as [Hy _].
      apply Z.eqb_neq in Hy. exact (Hy Heq).
    + apply NoDup_map_snoc; [assumption|]. intros y Hy Heq.
      apply (existsb_false _ _ Ekey) in Hy. apply String.eqb_neq in Hy.
      exact (Hy Heq).
    + intros x Hx.
      apply in_app_or in Hx as [Hx | [<- | []]]; [now apply science_refer0|].
      exists rf. simpl. repeat split; assumption.
Qed.

Lemma py_eq_true (v : option string) (lit : string) :
  py_eq v lit = true -> v = Some lit.
Proof.
  destruct v as [t|]; simpl; [|discriminate].
  intros H. apply String.eqb_eq in H. now subst.
Qed.

(** One turn of the ingestion loop keeps the tables consistent, whatever the
    file; on an ingestible file it returns. *)
Lemma register_fits_file_consistent fits_file opened w :
  consistent (conn w) ->
  consistent (conn (snd (register_fits_file fits_file opened w)))
  /\ (ingestible opened -> fst (register_fits_file fits_file opened w) = Ok tt).
Proof.
  intros Hc. destruct opened as [err|h]; [now split|].
  cbn [register_fits_file ingestible]. unfold mbind, M_bind, lift, mret, M_ret.
  destruct (py_int (CDELT1 h)) as [c1|e1] eqn:H1.
  2: { split; [assumption|]. intros [(a & b & Ha & Hb) _]. discriminate. }
  destruct (py_int (CDELT2 h)) as [c2|e2] eqn:H2.
  2: { split; [assumption|]. intros [(a & b & Ha & Hb) _]. discriminate. }
  rewrite add_raw_file_unfold.
  cbn [fi_path fi_category fi_type fi_object_name fi_date fi_binning fi_filter
       fi_read_speed].
  destruct (existsb _ (raw_files (conn w))) eqn:E; [now split|].
  match goal with
  | |- context [insert_raw_files ?i (conn w)] => set (info := i)
  end.
  destruct (insert_raw_files info (conn w)) as [[id db']|e] eqn:Hins.
  2: { unfold insert_raw_files in Hins. cbn [fi_path info] in Hins.
       rewrite E in Hins. discriminate. }
  destruct (insert_raw_files_consistent _ _ _ _ Hc Hins)
    as (Hc' & Hfresh & row & Hraw & Hfl & Hdk & Hsc & _ & Hid & _ & Hb & Hr
        & Hf & Ho & Hd).
  cbn [fi_binning fi_read_speed fi_filter fi_object_name fi_date info]
    in Hb, Hr, Hf, Ho, Hd.
  set (w' := {| conn := db'; stdout := stdout w |}).
  assert (Hrow : In row (raw_files (conn w')))
    by (simpl; rewrite Hraw; apply in_or_app; right; now left).
  destruct (py_eq (DPR_CATG h) "CALIB") eqn:Hcat.
  - destruct (DPR_TYPE h) as [ty|] eqn:Hty.
    + destruct (contains "FLAT" ty).
      * destruct (add_flat_consistent id (str_of_int c1 ++ "x" ++ str_of_int c2)
                    (INS_FILT1_NAME h) (DET_READ_SPEED h) w' Hc')
          as [Hk Hv]; [eauto 10|].
        split; [exact Hk | intros _; exact Hv].
      * destruct (String.eqb ty "DARK").
        -- destruct (add_dark_consistent id
                       (str_of_int c1 ++ "x" ++ str_of_int c2)
                       (DET_READ_SPEED h) w' Hc') as [Hk Hv]; [eauto 10|].
           split; [exact Hk | intros _; exact Hv].
        -- now split.
    + split; [exact Hc'|]. intros [_ Hneed]. exfalso.
      apply Hneed; [now apply py_eq_true | reflexivity].
  - destruct (py_eq (DPR_CATG h) "SCIENCE"); [|now split].
    destruct (OBJECT h) as [o|] eqn:Hobj; [|now split].
    destruct (DATE h) as [d|] eqn:Hdate; [|now split].
    destruct (truthy (Some o) && truthy (Some d)); [|now split].
    destruct (add_science_consistent id o d w' Hc') as [Hk Hv]; [eauto 10|].
    destruct Hv as [r Hv].
    { simpl. rewrite Hsc. intros Hin.
      apply in_map_iff in Hin as (x & Hx & Hin).
      destruct Hc as [_ _ _ _ _ _ _ _ Href].
      destruct (Href x Hin) as (rf & Hrf & Hrfid & _).
      apply Hfresh. rewrite <- Hx, <- Hrfid. now apply in_map. }
    destruct (add_science id o d w') as [[a|e] w2]; simpl in Hv, Hk |- *;
      [now split | discriminate].
Qed.

Lemma register_fits_files_cons fits_file opened rest w :
  register_fits_files ((fits_file, opened) :: rest) w =
  match register_fits_file fits_file opened w with
  | (Ok _, w') => register_fits_files rest w'
  | (Raise e, w') => (Raise e, w')
  end.
Proof. reflexivity. Qed.

Lemma register_fits_files_keep_consistent fits_files w :
  consistent (conn w) ->
  consistent (conn (snd (register_fits_files fits_files w)))
  /\ (Forall (fun f => ingestible (snd f)) fits_files ->
      fst (register_fits_files fits_files w) = Ok tt).
Proof.
  revert w. induction fits_files as [|[fits_file opened] rest IH]; intros w Hc.
  - now split.
  - rewrite register_fits_files_cons.
    destruct (register_fits_file_consistent fits_file opened w Hc) as [Hk Hv].
    destruct (register_fits_file fits_file opened w) as [[[]|e] w'];
      simpl in Hk, Hv.
    + destruct (IH w' Hk) as [Hk' Hv']. split; [exact Hk'|].
      intros Hall. apply Hv'. now inversion Hall.
    + split; [exact Hk|]. intros Hall. inversion Hall as [|? ? Hi _]; subst.
      specialize (Hv Hi). discriminate.
Qed.

(** X1. A run of [register_fits_files], returning or raising, keeps the
    tables consistent: ids, paths and science keys stay unique, no raw
    exposure gets two flat, dark or science rows, and every flat, dark and
    science row refers to a raw exposure with the same parameters. *)
Theorem ingestion_keeps_tables_consistent fits_files w :
  consistent (conn w) ->
  consistent (conn (snd (register_fits_files fits_files w))).
Proof. intros Hc. apply register_fits_files_keep_consistent, Hc. Qed.

Lemma ingestion_keeps_tables_consistent_witness :
  consistent (conn (catalogue (Some "R_SPECIAL"))).
Proof.
  apply (ingestion_keeps_tables_consistent (directory (Some "R_SPECIAL")) fresh).
  apply consistent_create_tables.
Defined.

Lemma directory_ingestible filter_name :
  Forall (fun f => ingestible (snd f)) (directory filter_name).
Proof.
  repeat constructor; simpl; try (do 2 eexists; split; reflexivity);
    discriminate.
Qed.

(** X2. On consistent tables a listing of ingestible files is ingested to
    the end: no INSERT violates a constraint, the run returns. *)
Theorem ingestion_returns fits_files w :
  consistent (conn w) ->
  Forall (fun f => ingestible (snd f)) fits_files ->
  fst (register_fits_files fits_files w) = Ok tt.
Proof. intros Hc. apply register_fits_files_keep_consistent, Hc. Qed.

Lemma ingestion_returns_witness :
  fst (register_fits_files (directory None) fresh) = Ok tt.
Proof.
  apply (ingestion_returns (directory None) fresh).
  - apply consistent_create_tables.
  - apply directory_ingestible.
Defined.

(** Two rows of a table with a UNIQUE column that agree on it are one row. *)
Lemma NoDup_map_inj {A K} (f : A -> K) (l : list A) (a b : A) :
  NoDup (map f l) -> In a l -> In b l -> f a = f b -> a = b.
Proof.
  intros Hnd Ha Hb Hf. induction l as [|x l IH]; [destruct Ha|].
  simpl in Hnd. apply NoDup_cons in Hnd as [Hx Hnd].
  destruct Ha as [-> | Ha], Hb as [-> | Hb]; auto.
  - exfalso. apply Hx. rewrite Hf. apply list_elem_of_In. now apply in_map.
  - exfalso. apply Hx. rewrite <- Hf. apply list_elem_of_In. now apply in_map.
Qed.

(** X3. On consistent tables every science key resolves: the call returns
    the path of the raw exposure the science row refers to, and each flat
    returned is itself a raw exposure with the science exposure's binning,
    read speed and filter, each dark one with its binning and read speed. *)
Theorem science_key_resolves w s :
  consistent (conn w) ->
  In s (science (conn w)) ->
  exists rf flats_df darks_df,
    In rf (raw_files (conn w)) /\ rf_id rf = sc_raw_file_id s
    /\ get_files_for_science (sc_unique_key s) w
       = (Ok (Some (rf_path rf, flats_df, darks_df)), w)
    /\ (forall r, In r flats_df ->
          rf_binning r = rf_binning rf /\ rf_read_speed r = rf_read_speed rf
          /\ rf_filter r = rf_filter rf)
    /\ (forall r, In r darks_df ->
          rf_binning r = rf_binning rf /\ rf_read_speed r = rf_read_speed rf).
Proof.
  intros Hc Hs. pose proof Hc as [Hids _ _ _ _ Hkeys Hfl Hdk Hsc].
  destruct (Hsc s Hs) as (rf & Hrf & Hid & _).
  pose proof (science_join_raw_unique _ _ _ Hkeys Hids Hs Hrf Hid) as Hjoin.
  exists rf,
    (flats_query (rf_binning rf) (rf_read_speed rf) (rf_filter rf) (conn w)),
    (darks_query (rf_binning rf) (rf_read_speed rf) (conn w)).
  repeat split; try assumption.
  - unfold get_files_for_science, mbind, M_bind, query, mret, M_ret.
    rewrite Hjoin. simpl. now rewrite Hjoin.
  - apply flats_query_In in H as (f & Hf & Hr & Hfid & [= Hb Hsp Hn] & _).
    destruct (Hfl f Hf) as (r' & Hr' & Hid' & Hb' & _).
    assert (r = r') as -> by (eapply NoDup_map_inj; eauto; congruence).
    congruence.
  - apply flats_query_In in H as (f & Hf & Hr & Hfid & [= Hb Hsp Hn] & _).
    destruct (Hfl f Hf) as (r' & Hr' & Hid' & _ & Hs' & _).
    assert (r = r') as -> by (eapply NoDup_map_inj; eauto; congruence).
    congruence.
  - apply flats_query_In in H as (f & Hf & Hr & Hfid & [= Hb Hsp Hn] & _).
    destruct (Hfl f Hf) as (r' & Hr' & Hid' & _ & _ & Hn').
    assert (r = r') as -> by (eapply NoDup_map_inj; eauto; congruence).
    congruence.
  - apply darks_query_In in H as (d & Hd & Hr & Hdid & [= Hb Hsp] & _).
    destruct (Hdk d Hd) as (r' & Hr' & Hid' & Hb' & _).
    assert (r = r') as -> by (eapply NoDup_map_inj; eauto; congruence).
    congruence.
  - apply darks_query_In in H as (d & Hd & Hr & Hdid & [= Hb Hsp] & _).
    destruct (Hdk d Hd) as (r' & Hr' & Hid' & _ & Hs').
    assert (r = r') as -> by (eapply NoDup_map_inj; eauto; congruence).
    congruence.
Qed.

Lemma science_key_resolves_witness :
  exists rf flats_df darks_df,
    In rf (raw_files (conn (catalogue (Some "R_SPECIAL"))))
    /\ rf_id rf = 1%Z
    /\ get_files_for_science "NGC1365__2024-01-02T03:00:00"
         (catalogue (Some "R_SPECIAL"))
       = (Ok (Some (rf_path rf, flats_df, darks_df)),
          catalogue (Some "R_SPECIAL"))
    /\ (forall r, In r flats_df ->
          rf_binning r = rf_binning rf /\ rf_read_speed r = rf_read_speed rf
          /\ rf_filter r = rf_filter rf)
    /\ (forall r, In r darks_df ->
          rf_binning r = rf_binning rf /\ rf_read_speed r = rf_read_speed rf).
Proof.
  apply (science_key_resolves (catalogue (Some "R_SPECIAL"))
           {| sc_id := 1; sc_raw_file_id := 1;
              sc_unique_key := "NGC1365__2024-01-02T03:00:00";
              sc_object_name := "NGC1365";
              sc_date := "2024-01-02T03:00:00" |}).
  - apply register_fits_files_keep_consistent, consistent_create_tables.
  - vm_compute. left. reflexivity.
Defined.

(** *** A second run over the same directory *)

Lemma register_fits_file_keeps_paths fits_file opened w w1 q :
  register_fits_file fits_file opened w = (Ok tt, w1) ->
  existsb (fun r => String.eqb (rf_path r) q) (raw_files (conn w)) = true ->
  existsb (fun r => String.eqb (rf_path r) q) (raw_files (conn w1)) = true.
Proof.
  destruct opened as [err|h].
  - intros [= <-]. auto.
  - intros Hrun Hq.
    destruct (register_fits_file_returns _ _ _ _ Hrun)
      as [_ [[_ ->] | (_ & row & _ & ->)]]; [assumption|].
    rewrite existsb_app, Hq. reflexivity.
Qed.

(** After a run that returned, every file of the listing that opens has
    CDELT cards that go through [int(...)] and a row in [raw_files]. *)
Lemma register_fits_files_returns fits_files w w1 :
  register_fits_files fits_files w = (Ok tt, w1) ->
  (forall q, existsb (fun r => String.eqb (rf_path r) q) (raw_files (conn w)) = true ->
             existsb (fun r => String.eqb (rf_path r) q) (raw_files (conn w1)) = true)
  /\ forall fits_file h, In (fits_file, Readable h) fits_files ->
       (exists cdelt1 cdelt2,
           py_int (CDELT1 h) = Ok cdelt1 /\ py_int (CDELT2 h) = Ok cdelt2)
       /\ existsb (fun r => String.eqb (rf_path r) fits_file) (raw_files (conn w1))
          = true.
Proof.
  revert w. induction fits_files as [|[p o] rest IH]; intros w.
  - intros [= <-]. split; [auto | intros ? ? []].
  - rewrite register_fits_files_cons.
    destruct (register_fits_file p o w) as [[[]|e] w'] eqn:Hturn; [|discriminate].
    intros Hrest. destruct (IH w' Hrest) as [Hmono Hall]. split.
    + intros q Hq. apply Hmono.
      eapply register_fits_file_keeps_paths; eassumption.
    + intros fits_file h [[= -> ->] | Hin]; [|now apply Hall].
      destruct (register_fits_file_returns _ _ _ _ Hturn) as [Hcdelt Hraw].
      split; [exact Hcdelt|]. apply Hmono.
      destruct Hraw as [[E ->] | (_ & row & Hrow & ->)]; [assumption|].
      rewrite existsb_app. simpl. rewrite Hrow, String.eqb_refl.
      now rewrite orb_true_r.
Qed.

Lemma register_fits_files_known_paths fits_files w :
  (forall fits_file h, In (fits_file, Readable h) fits_files ->
     (exists cdelt1 cdelt2,
         py_int (CDELT1 h) = Ok cdelt1 /\ py_int (CDELT2 h) = Ok cdelt2)
     /\ existsb (fun r => String.eqb (rf_path r) fits_file) (raw_files (conn w))
        = true) ->
  exists w2, register_fits_files fits_files w = (Ok tt, w2) /\ conn w2 = conn w.
Proof.
  revert w. induction fits_files as [|[p o] rest IH]; intros w Hall.
  - exists w. now split.
  - rewrite register_fits_files_cons. destruct o as [err|h].
    + cbn [register_fits_file]. unfold print.
      match goal with |- context [register_fits_files rest ?w0] =>
        destruct (IH w0) as (w2 & Hrun & Hconn) end.
      { intros q h Hin. apply Hall. now right. }
      exists w2. split; [exact Hrun | exact Hconn].
    + destruct (Hall p h (or_introl eq_refl)) as [(c1 & c2 & H1 & H2) E].
      rewrite (register_fits_file_known_path p h w c1 c2 H1 H2 E).
      apply IH. intros q h' Hin. apply Hall. now right.
Qed.

(** X4. Running [register_fits_files] again over a listing it has ingested
    returns and leaves all five tables as they are. *)
Theorem second_run_changes_no_table fits_files w w1 :
  register_fits_files fits_files w = (Ok tt, w1) ->
  exists w2, register_fits_files fits_files w1 = (Ok tt, w2) /\ conn w2 = conn w1.
Proof.
  intros Hrun. apply register_fits_files_known_paths.
  apply (register_fits_files_returns _ _ _ Hrun).
Qed.

Lemma second_run_changes_no_table_witness :
  exists w2,
    register_fits_files (directory None) (catalogue None) = (Ok tt, w2)
    /\ conn w2 = conn (catalogue None).
Proof.
  apply (second_run_changes_no_table (directory None) fresh).
  vm_compute. reflexivity.
Defined.

(** *** Marking a science key as reduced *)

(** Which keys the query of [get_unreduced_science_files] lists. *)
Lemma unreduced_In w keys k :
  get_unreduced_science_files w = (Ok keys, w) ->
  In k keys <->
  (exists s, In s (science (conn w)) /\ sc_unique_key s = k)
  /\ forall r, In r (reduced_data (conn w)) -> rd_science_unique_key r <> k.
Proof.
  intros [= <-]. rewrite in_map_iff. split.
  - intros ([s o] & <- & Hin). apply filter_In in Hin as [Hin Ho].
    destruct o as [r|]; [discriminate|].
    apply left_join_reduced_In in Hin as [Hs Hno]. simpl. eauto.
  - intros [(s & Hs & <-) Hno]. exists (s, None). split; [reflexivity|].
    apply filter_In. split; [|reflexivity].
    apply left_join_reduced_In. now split.
Qed.

Lemma add_reduced_data_unfold k p w :
  add_reduced_data k p w =
  if existsb (fun r => String.eqb (rd_science_unique_key r) k
                       || String.eqb (rd_reduced_path r) p)
             (reduced_data (conn w))
  then (Ok tt, w)
  else (Ok tt,
        {| conn :=
             {| raw_files := raw_files (conn w); flats := flats (conn w);
                darks := darks (conn w); science := science (conn w);
                reduced_data :=
                  (reduced_data (conn w)
                   ++ [{| rd_id := next_rowid (map rd_id (reduced_data (conn w)));
                          rd_science_unique_key := k;
                          rd_reduced_path := p |}])%list |};
           stdout := stdout w |}).
Proof.
  unfold add_reduced_data, execute, insert_or_ignore_reduced_data.
  destruct (existsb _ (reduced_data (conn w))); [destruct w|]; reflexivity.
Qed.

(** X5. [add_reduced_data] with an output path that no row holds yet takes
    the key, and no other key, off the list of unreduced science keys. *)
Theorem add_reduced_data_marks_reduced w k p :
  (forall r, In r (reduced_data (conn w)) -> rd_reduced_path r <> p) ->
  exists w1 keys keys1,
    add_reduced_data k p w = (Ok tt, w1)
    /\ get_unreduced_science_files w = (Ok keys, w)
    /\ get_unreduced_science_files w1 = (Ok keys1, w1)
    /\ forall k', In k' keys1 <-> In k' keys /\ k' <> k.
Proof.
  intros Hpath. rewrite add_reduced_data_unfold.
  destruct (existsb _ (reduced_data (conn w))) eqn:E.
  - exists w. do 2 eexists.
    split; [reflexivity|]. split; [reflexivity|]. split; [reflexivity|].
    intros k'. split; [|tauto]. intros Hin. split; [exact Hin|]. intros ->.
    apply (unreduced_In w _ k eq_refl) in Hin as [_ Hno].
    apply existsb_exists in E as (r & Hr & Hor).
    apply orb_prop in Hor as [Hk | Hp].
    + apply String.eqb_eq in Hk. exact (Hno r Hr Hk).
    + apply String.eqb_eq in Hp. exact (Hpath r Hr Hp).
  - set (row := {| rd_id := next_rowid (map rd_id (reduced_data (conn w)));
                   rd_science_unique_key := k; rd_reduced_path := p |}).
    do 3 eexists.
    split; [reflexivity|]. split; [reflexivity|]. split; [reflexivity|].
    intros k'. rewrite (unreduced_In _ _ k' eq_refl).
    rewrite (unreduced_In w _ k' eq_refl). simpl. split.
    + intros [Hs Hno]. split; [split; [exact Hs|]|].
      * intros r Hr. apply Hno. apply in_or_app. now left.
      * intros ->. apply (Hno row); [|reflexivity].
        apply in_or_app. right. now left.
    + intros [[Hs Hno] Hne]. split; [exact Hs|].
      intros r Hr. apply in_app_or in Hr as [Hr | [<- | []]].
      * now apply Hno.
      * simpl. congruence.
Qed.

Lemma add_reduced_data_marks_reduced_witness :
  exists w1 keys keys1,
    add_reduced_data "NGC1365__2024-01-02T03:00:00" "reduced.fits"
      (catalogue None) = (Ok tt, w1)
    /\ get_unreduced_science_files (catalogue None) = (Ok keys, catalogue None)
    /\ get_unreduced_science_files w1 = (Ok keys1, w1)
    /\ forall k', In k' keys1 <->
                  In k' keys /\ k' <> "NGC1365__2024-01-02T03:00:00".
Proof.
  apply (add_reduced_data_marks_reduced (catalogue None)
           "NGC1365__2024-01-02T03:00:00" "reduced.fits").
  intros r Hr. vm_compute in Hr. destruct Hr.
Defined.

(** X6. [add_reduced_data] with an output path that another row holds is
    ignored without an error: the tables are unchanged, and a key that was
    listed as unreduced is still listed. *)
Theorem add_reduced_data_path_taken w k p r keys :
  In r (reduced_data (conn w)) -> rd_reduced_path r = p ->
  get_unreduced_science_files w = (Ok keys, w) -> In k keys ->
  add_reduced_data k p w = (Ok tt, w)
  /\ exists keys1,
       get_unreduced_science_files (snd (add_reduced_data k p w))
       = (Ok keys1, snd (add_reduced_data k p w))
       /\ In k keys1.
Proof.
  intros Hr Hp Hkeys Hk.
  assert (Hrun : add_reduced_data k p w = (Ok tt, w)).
  { rewrite add_reduced_data_unfold.
    replace (existsb _ (reduced_data (conn w))) with true; [reflexivity|].
    symmetry. apply existsb_exists. exists r. split; [exact Hr|].
    rewrite Hp, String.eqb_refl. apply orb_true_r. }
  split; [exact Hrun|]. rewrite Hrun. exists keys. now split.
Qed.

Lemma add_reduced_data_path_taken_witness :
  let w := snd (add_reduced_data "M83__2024-01-03" "reduced.fits" (catalogue None)) in
  add_reduced_data "NGC1365__2024-01-02T03:00:00" "reduced.fits" w = (Ok tt, w)
  /\ exists keys1,
       get_unreduced_science_files
         (snd (add_reduced_data "NGC1365__2024-01-02T03:00:00" "reduced.fits" w))
       = (Ok keys1,
          snd (add_reduced_data "NGC1365__2024-01-02T03:00:00" "reduced.fits" w))
       /\ In "NGC1365__2024-01-02T03:00:00" keys1.
Proof.
  apply (add_reduced_data_path_taken _ "NGC1365__2024-01-02T03:00:00"
           "reduced.fits"
           {| rd_id := 1; rd_science_unique_key := "M83__2024-01-03";
              rd_reduced_path := "reduced.fits" |}
           ["NGC1365__2024-01-02T03:00:00"]).
  - vm_compute. left. reflexivity.
  - reflexivity.
  - vm_compute. reflexivity.
  - left. reflexivity.
Defined.

(** *** Science frames *)

(** The call on the key of a science row that refers to a raw exposure,
    under the UNIQUE constraints. *)
Lemma get_files_for_science_returns w s rf :
  NoDup (map sc_unique_key (science (conn w))) ->
  NoDup (map rf_id (raw_files (conn w))) ->
  In s (science (conn w)) -> In rf (raw_files (conn w)) ->
  rf_id rf = sc_raw_file_id s ->
  get_files_for_science (sc_unique_key s) w
  = (Ok (Some (rf_path rf,
               flats_query (rf_binning rf) (rf_read_speed rf) (rf_filter rf)
                           (conn w),
               darks_query (rf_binning rf) (rf_read_speed rf) (conn w))), w).
Proof.
  intros Hkeys Hids Hs Hrf Hid.
  pose proof (science_join_raw_unique _ _ _ Hkeys Hids Hs Hrf Hid) as Hjoin.
  unfold get_files_for_science, mbind, M_bind, query, mret, M_ret.
  rewrite Hjoin. simpl. now rewrite Hjoin.
Qed.

Lemma existsb_none {A} (p : A -> bool) (l : list A) :
  (forall y, In y l -> p y = false) -> existsb p l = false.
Proof.
  intros H. destruct (existsb p l) eqn:E; [|reflexivity].
  apply existsb_exists in E as (y & Hy & Hp). rewrite (H y Hy) in Hp.
  discriminate.
Qed.

Lemma truthy_nonempty (v : string) : v <> "" -> truthy (Some v) = true.
Proof. intros H. simpl. now apply String.eqb_neq in H as ->. Qed.

(** The turn of the loop for a SCIENCE frame with an object name and a date,
    at a path that is not in [raw_files]: the raw row, then [add_science]. *)
Lemma register_science_frame fits_file h w cdelt1 cdelt2 o d :
  py_int (CDELT1 h) = Ok cdelt1 -> py_int (CDELT2 h) = Ok cdelt2 ->
  DPR_CATG h = Some "SCIENCE" -> OBJECT h = Some o -> DATE h = Some d ->
  o <> "" -> d <> "" ->
  existsb (fun r => String.eqb (rf_path r) fits_file) (raw_files (conn w)) = false ->
  exists row,
    rf_path row = fits_file
    /\ rf_id row = next_rowid (map rf_id (raw_files (conn w)))
    /\ rf_object_name row = Some o /\ rf_date row = Some d
    /\ register_fits_file fits_file (Readable h) w
       = match add_science (rf_id row) o d
                 {| conn := {| raw_files := (raw_files (conn w) ++ [row])%list;
                               flats := flats (conn w); darks := darks (conn w);
                               science := science (conn w);
                               reduced_data := reduced_data (conn w) |};
                    stdout := stdout w |} with
         | (Ok _, w2) => (Ok tt, w2)
         | (Raise e, w2) => (Raise e, w2)
         end.
Proof.
  intros H1 H2 Hcat Hobj Hdate Ho Hd E.
  cbn [register_fits_file]. unfold mbind, M_bind, lift, mret, M_ret.
  rewrite H1, H2, add_raw_file_unfold. cbn [fi_path]. rewrite E.
  unfold insert_raw_files. cbn [fi_path]. rewrite E.
  cbn [fi_path fi_category fi_type fi_object_name fi_date fi_binning fi_filter
       fi_read_speed fi_mjd fi_exposure_time].
  rewrite Hcat, Hobj, Hdate, (truthy_nonempty o Ho), (truthy_nonempty d Hd).
  change (py_eq (Some "SCIENCE") "CALIB") with false.
  change (py_eq (Some "SCIENCE") "SCIENCE") with true.
  cbn [andb].
  match goal with
  | |- context [(raw_files (conn w) ++ [?r])%list] => exists r
  end.
  repeat split.
Qed.

(** X7. Ingesting a SCIENCE frame with an object name and a date, at a new
    path and with a key that no science row has, into consistent tables: the
    turn returns and the key "{object}__{date}" resolves to the path of the
    frame. The key is listed as unreduced exactly when no row of
    [reduced_data] carries it already: the foreign key is not enforced, so
    [add_reduced_data] may have run on the key before the frame came. *)
Theorem new_science_frame_resolves fits_file h w cdelt1 cdelt2 o d :
  consistent (conn w) ->
  py_int (CDELT1 h) = Ok cdelt1 -> py_int (CDELT2 h) = Ok cdelt2 ->
  DPR_CATG h = Some "SCIENCE" -> OBJECT h = Some o -> DATE h = Some d ->
  o <> "" -> d <> "" ->
  existsb (fun r => String.eqb (rf_path r) fits_file) (raw_files (conn w)) = false ->
  (forall s, In s (science (conn w)) -> sc_unique_key s <> o ++ "__" ++ d) ->
  exists w1 keys flats_df darks_df,
    register_fits_file fits_file (Readable h) w = (Ok tt, w1)
    /\ get_files_for_science (o ++ "__" ++ d) w1
       = (Ok (Some (fits_file, flats_df, darks_df)), w1)
    /\ get_unreduced_science_files w1 = (Ok keys, w1)
    /\ (In (o ++ "__" ++ d) keys <->
        forall r, In r (reduced_data (conn w)) ->
                  rd_science_unique_key r <> o ++ "__" ++ d).
Proof.
  intros Hc H1 H2 Hcat Hobj Hdate Ho Hd E Hkey.
  destruct (register_science_frame fits_file h w cdelt1 cdelt2 o d)
    as (row & Hpath & Hid & Hrobj & Hrdate & Hrun); try assumption.
  pose proof (register_fits_file_consistent fits_file (Readable h) w Hc)
    as [Hc1 _].
  rewrite Hrun in Hc1 |- *. clear Hrun.
  rewrite add_science_unfold in Hc1 |- *. cbv zeta in Hc1 |- *.
  cbn [conn science stdout] in Hc1 |- *.
  assert (Ekey : existsb (fun r => String.eqb (sc_unique_key r) (o ++ "__" ++ d))
                         (science (conn w)) = false).
  { apply existsb_none. intros y Hy. apply String.eqb_neq. now apply Hkey. }
  assert (Eins : existsb (fun r => Z.eqb (sc_raw_file_id r) (rf_id row)
                                   || String.eqb (sc_unique_key r) (o ++ "__" ++ d))
                         (science (conn w)) = false).
  { apply existsb_none. intros y Hy. apply orb_false_intro.
    - apply Z.eqb_neq. intros Heq.
      destruct Hc as [_ _ _ _ _ _ _ _ Href].
      destruct (Href y Hy) as (rf & Hrf & Hrfid & _).
      apply (next_rowid_fresh (map rf_id (raw_files (conn w)))).
      rewrite <- Hid, <- Heq, <- Hrfid. now apply in_map.
    - apply String.eqb_neq. now apply Hkey. }
  rewrite Ekey in Hc1 |- *.
  unfold insert_science in Hc1 |- *. cbn [science] in Hc1 |- *.
  rewrite Eins in Hc1 |- *.
  cbn [snd conn] in Hc1.
  match goal with |- context [(Ok tt, ?w0)] => set (w1 := w0) in * end.
  set (srow := {| sc_id := next_rowid (map sc_id (science (conn w)));
                  sc_raw_file_id := rf_id row; sc_unique_key := o ++ "__" ++ d;
                  sc_object_name := o; sc_date := d |}) in *.
  assert (Hs : In srow (science (conn w1)))
    by (simpl; apply in_or_app; right; now left).
  assert (Hrf : In row (raw_files (conn w1)))
    by (simpl; apply in_or_app; right; now left).
  exists w1. do 3 eexists.
  split; [reflexivity|]. split; [|split; [reflexivity|]].
  - pose proof Hc1 as [Hids _ _ _ _ Hkeys _ _ _].
    rewrite <- Hpath.
    exact (get_files_for_science_returns w1 srow row Hkeys Hids Hs Hrf eq_refl).
  - rewrite (unreduced_In w1 _ (o ++ "__" ++ d) eq_refl). split.
    + intros [_ Hno]. exact Hno.
    + intros Hno. split; [now exists srow | exact Hno].
Qed.

Lemma new_science_frame_resolves_witness :
  exists w1 keys flats_df darks_df,
    register_fits_file "science.fits" (Readable (science_header None)) fresh
    = (Ok tt, w1)
    /\ get_files_for_science ("NGC1365" ++ "__" ++ "2024-01-02T03:00:00") w1
       = (Ok (Some ("science.fits", flats_df, darks_df)), w1)
    /\ get_unreduced_science_files w1 = (Ok keys, w1)
    /\ (In ("NGC1365" ++ "__" ++ "2024-01-02T03:00:00") keys <->
        forall r, In r (reduced_data (conn fresh)) ->
                  rd_science_unique_key r
                  <> "NGC1365" ++ "__" ++ "2024-01-02T03:00:00").
Proof.
  apply (new_science_frame_resolves "science.fits"
           (science_header None) fresh 2 2 "NGC1365" "2024-01-02T03:00:00").
  - apply consistent_create_tables.
  - vm_compute. reflexivity.
  - vm_compute. reflexivity.
  - reflexivity.
  - reflexivity.
  - reflexivity.
  - discriminate.
  - discriminate.
  - reflexivity.
  - intros s [].
Defined.

(** X8. Ingesting a second SCIENCE frame whose object name and date give a
    key that a science row already has: the frame gets its raw row and
    nothing else, the diagnostic is printed, and the key still resolves to the
    exposure of the first frame. *)
Theorem duplicate_science_frame_is_shadowed fits_file h w cdelt1 cdelt2 o d s0 :
  consistent (conn w) ->
  py_int (CDELT1 h) = Ok cdelt1 -> py_int (CDELT2 h) = Ok cdelt2 ->
  DPR_CATG h = Some "SCIENCE" -> OBJECT h = Some o -> DATE h = Some d ->
  o <> "" -> d <> "" ->
  existsb (fun r => String.eqb (rf_path r) fits_file) (raw_files (conn w)) = false ->
  In s0 (science (conn w)) -> sc_unique_key s0 = o ++ "__" ++ d ->
  exists w1 row rf0 flats_df darks_df,
    register_fits_file fits_file (Readable h) w = (Ok tt, w1)
    /\ raw_files (conn w1) = (raw_files (conn w) ++ [row])%list
    /\ rf_path row = fits_file
    /\ flats (conn w1) = flats (conn w) /\ darks (conn w1) = darks (conn w)
    /\ science (conn w1) = science (conn w)
    /\ reduced_data (conn w1) = reduced_data (conn w)
    /\ stdout w1 = (stdout w ++ [("Science entry with unique_key "
                                   ++ (o ++ "__" ++ d)
                                   ++ " already exists.")%string])%list
    /\ In rf0 (raw_files (conn w)) /\ rf_id rf0 = sc_raw_file_id s0
    /\ rf_path rf0 <> fits_file
    /\ get_files_for_science (o ++ "__" ++ d) w1
       = (Ok (Some (rf_path rf0, flats_df, darks_df)), w1).
Proof.
  intros Hc H1 H2 Hcat Hobj Hdate Ho Hd E Hs0 Hkey.
  destruct (register_science_frame fits_file h w cdelt1 cdelt2 o d)
    as (row & Hpath & Hid & Hrobj & Hrdate & Hrun); try assumption.
  pose proof (register_fits_file_consistent fits_file (Readable h) w Hc)
    as [Hc1 _].
  rewrite Hrun in Hc1 |- *. clear Hrun.
  rewrite add_science_unfold in Hc1 |- *. cbv zeta in Hc1 |- *.
  cbn [conn science stdout] in Hc1 |- *.
  assert (Ekey : existsb (fun r => String.eqb (sc_unique_key r) (o ++ "__" ++ d))
                         (science (conn w)) = true).
  { apply existsb_exists. exists s0. split; [exact Hs0|].
    now apply String.eqb_eq. }
  rewrite Ekey in Hc1 |- *. cbn [snd conn] in Hc1.
  match goal with |- context [(Ok tt, ?w0)] => set (w1 := w0) in * end.
  pose proof Hc as [_ _ _ _ _ _ _ _ Href].
  destruct (Href s0 Hs0) as (rf0 & Hrf0 & Hrf0id & _).
  exists w1, row, rf0. do 2 eexists.
  repeat (split; [reflexivity || assumption|]).
  split; [|].
  - intros Heq. apply (existsb_false _ _ E) in Hrf0.
    apply String.eqb_neq in Hrf0. exact (Hrf0 Heq).
  - pose proof Hc1 as [Hids _ _ _ _ Hkeys _ _ _].
    rewrite <- Hkey.
    apply (get_files_for_science_returns w1 s0 rf0 Hkeys Hids Hs0);
      [|exact Hrf0id].
    simpl. apply in_or_app. now left.
Qed.

Lemma duplicate_science_frame_is_shadowed_witness :
  exists w1 row rf0 flats_df darks_df,
    register_fits_file "again.fits" (Readable (science_header None))
      (catalogue None) = (Ok tt, w1)
    /\ raw_files (conn w1) = (raw_files (conn (catalogue None)) ++ [row])%list
    /\ rf_path row = "again.fits"
    /\ flats (conn w1) = flats (conn (catalogue None))
    /\ darks (conn w1) = darks (conn (catalogue None))
    /\ science (conn w1) = science (conn (catalogue None))
    /\ reduced_data (conn w1) = reduced_data (conn (catalogue None))
    /\ stdout w1
       = (stdout (catalogue None)
          ++ [("Science entry with unique_key "
               ++ ("NGC1365" ++ "__" ++ "2024-01-02T03:00:00")
               ++ " already exists.")%string])%list
    /\ In rf0 (raw_files (conn (catalogue None))) /\ rf_id rf0 = 1%Z
    /\ rf_path rf0 <> "again.fits"
    /\ get_files_for_science ("NGC1365" ++ "__" ++ "2024-01-02T03:00:00") w1
       = (Ok (Some (rf_path rf0, flats_df, darks_df)), w1).
Proof.
  apply (duplicate_science_frame_is_shadowed "again.fits" (science_header None)
           (catalogue None) 2 2 "NGC1365" "2024-01-02T03:00:00"
           {| sc_id := 1; sc_raw_file_id := 1;
              sc_unique_key := "NGC1365__2024-01-02T03:00:00";
              sc_object_name := "NGC1365";
              sc_date := "2024-01-02T03:00:00" |}).
  - apply register_fits_files_keep_consistent, consistent_create_tables.
  - vm_compute. reflexivity.
  - vm_compute. reflexivity.
  - reflexivity.
  - reflexivity.
  - reflexivity.
  - discriminate.
  - discriminate.
  - vm_compute. reflexivity.
  - vm_compute. left. reflexivity.
  - reflexivity.
Defined.

(** *** What ingestion never writes *)

Lemma add_raw_file_reduced_data info w :
  reduced_data (conn (snd (add_raw_file info w))) = reduced_data (conn w).
Proof.
  rewrite add_raw_file_unfold.
  destruct (existsb _ (raw_files (conn w))); [reflexivity|].
  unfold insert_raw_files. destruct (existsb _ (raw_files (conn w))); reflexivity.
Qed.

Lemma add_flat_reduced_data id b f r w :
  reduced_data (conn (snd (add_flat id b f r w))) = reduced_data (conn w).
Proof.
  unfold add_flat, execute, insert_or_ignore_flats.
  destruct (existsb _ (flats (conn w))); reflexivity.
Qed.

Lemma add_dark_reduced_data id b r w :
  reduced_data (conn (snd (add_dark id b r w))) = reduced_data (conn w).
Proof.
  unfold add_dark, execute, insert_or_ignore_darks.
  destruct (existsb _ (darks (conn w))); reflexivity.
Qed.

Lemma add_science_reduced_data id o d w :
  reduced_data (conn (snd (add_science id o d w))) = reduced_data (conn w).
Proof.
  rewrite add_science_unfold. cbv zeta.
  destruct (existsb _ (science (conn w))); [reflexivity|].
  unfold insert_science. destruct (existsb _ (science (conn w))); reflexivity.
Qed.

Lemma register_fits_file_reduced_data fits_file opened w :
  reduced_data (conn (snd (register_fits_file fits_file opened w)))
  = reduced_data (conn w).
Proof.
  destruct opened as [err|h]; [reflexivity|].
  cbn [register_fits_file]. unfold mbind, M_bind, lift, mret, M_ret.
  destruct (py_int (CDELT1 h)); [|reflexivity].
  destruct (py_int (CDELT2 h)); [|reflexivity].
  match goal with
  | |- context [add_raw_file ?i w] =>
      pose proof (add_raw_file_reduced_data i w) as Hraw;
      destruct (add_raw_file i w) as [[[id|]|e] w']
  end; simpl in Hraw; try exact Hraw.
  rewrite <- Hraw.
  repeat match goal with
  | |- context [if ?b then _ else _] => destruct b
  | |- context [match ?o with Some _ => _ | None => _ end] => destruct o
  end;
  first [ apply add_flat_reduced_data | apply add_dark_reduced_data
        | reflexivity
        | match goal with
          | |- context [add_science ?i ?o ?d ?w0] =>
              pose proof (add_science_reduced_data i o d w0) as Hsc;
              destruct (add_science i o d w0) as [[? | ?] ?]; exact Hsc
          end ].
Qed.

(** X9. Ingestion never writes to [reduced_data], whether the run returns
    or raises. *)
Theorem ingestion_keeps_reduced_data fits_files w :
  reduced_data (conn (snd (register_fits_files fits_files w)))
  = reduced_data (conn w).
Proof.
  revert w. induction fits_files as [|[p o] rest IH]; intros w; [reflexivity|].
  rewrite register_fits_files_cons.
  pose proof (register_fits_file_reduced_data p o w) as Hturn.
  destruct (register_fits_file p o w) as [[[]|e] w']; simpl in Hturn.
  - now rewrite IH.
  - exact Hturn.
Qed.

(** *** Files that do not open *)

(** The tables after a method, and what it returns or raises, do not depend
    on what is on the console. *)
Lemma add_flat_console id b f r db o1 o2 :
  fst (add_flat id b f r {| conn := db; stdout := o1 |})
  = fst (add_flat id b f r {| conn := db; stdout := o2 |})
  /\ conn (snd (add_flat id b f r {| conn := db; stdout := o1 |}))
     = conn (snd (add_flat id b f r {| conn := db; stdout := o2 |})).
Proof.
  unfold add_flat, execute, insert_or_ignore_flats. cbn [conn].
  destruct (existsb _ (flats db)); now split.
Qed.

Lemma add_dark_console id b r db o1 o2 :
  fst (add_dark id b r {| conn := db; stdout := o1 |})
  = fst (add_dark id b r {| conn := db; stdout := o2 |})
  /\ conn (snd (add_dark id b r {| conn := db; stdout := o1 |}))
     = conn (snd (add_dark id b r {| conn := db; stdout := o2 |})).
Proof.
  unfold add_dark, execute, insert_or_ignore_darks. cbn [conn].
  destruct (existsb _ (darks db)); now split.
Qed.

Lemma add_science_console id o d db o1 o2 :
  fst (add_science id o d {| conn := db; stdout := o1 |})
  = fst (add_science id o d {| conn := db; stdout := o2 |})
  /\ conn (snd (add_science id o d {| conn := db; stdout := o1 |}))
     = conn (snd (add_science id o d {| conn := db; stdout := o2 |})).
Proof.
  rewrite !add_science_unfold. cbv zeta. cbn [conn].
  destruct (existsb _ (science db)); [now split|].
  unfold insert_science. destruct (existsb _ (science db)); now split.
Qed.

Lemma register_fits_file_console fits_file opened db o1 o2 :
  fst (register_fits_file fits_file opened {| conn := db; stdout := o1 |})
  = fst (register_fits_file fits_file opened {| conn := db; stdout := o2 |})
  /\ conn (snd (register_fits_file fits_file opened
                  {| conn := db; stdout := o1 |}))
     = conn (snd (register_fits_file fits_file opened
                    {| conn := db; stdout := o2 |})).
Proof.
  destruct opened as [err|h]; [now split|].
  cbn [register_fits_file]. unfold mbind, M_bind, lift, mret, M_ret.
  destruct (py_int (CDELT1 h)); [|now split].
  destruct (py_int (CDELT2 h)); [|now split].
  rewrite !add_raw_file_unfold. cbn [conn fi_path].
  destruct (existsb _ (raw_files db)) eqn:E; [now split|].
  unfold insert_raw_files. cbn [fi_path]. rewrite E. cbn [stdout].
  repeat match goal with
  | |- context [if ?b then _ else _] => destruct b
  | |- context [match ?o with Some _ => _ | None => _ end] => destruct o
  end;
  first [ apply add_flat_console | apply add_dark_console
        | now split
        | match goal with
          | |- context [add_science ?i ?o ?d {| conn := ?db0; stdout := o1 |}] =>
              pose proof (add_science_console i o d db0 o1 o2) as [Hf Hk];
              destruct (add_science i o d {| conn := db0; stdout := o1 |})
                as [[? | ?] ?];
              destruct (add_science i o d {| conn := db0; stdout := o2 |})
                as [[? | ?] ?];
              simpl in Hf, Hk |- *; try discriminate; split; congruence
          end ].
Qed.

Lemma register_fits_files_console fits_files w wa :
  conn w = conn wa ->
  fst (register_fits_files fits_files w) = fst (register_fits_files fits_files wa)
  /\ conn (snd (register_fits_files fits_files w))
     = conn (snd (register_fits_files fits_files wa)).
Proof.
  revert w wa. induction fits_files as [|[p o] rest IH]; intros w wa Hconn.
  - now split.
  - rewrite !register_fits_files_cons.
    destruct w as [db o1], wa as [db' o2]. simpl in Hconn. subst db'.
    destruct (register_fits_file_console p o db o1 o2) as [Hf Hk].
    destruct (register_fits_file p o {| conn := db; stdout := o1 |})
      as [[[]|e] w1];
      destruct (register_fits_file p o {| conn := db; stdout := o2 |})
        as [[[]|e'] w2]; simpl in Hf, Hk; try discriminate.
    + now apply IH.
    + split; [exact Hf | exact Hk].
Qed.

(** X16. Files of the listing that [fits.open] cannot read change the
    console only: the run returns or raises, and leaves the tables, as the
    run over the listing without them does. *)
Theorem unreadable_files_are_skipped fits_files w :
  let readable :=
    List.filter (fun f => match snd f with
                          | Readable _ => true
                          | Unreadable _ => false
                          end) fits_files in
  fst (register_fits_files fits_files w) = fst (register_fits_files readable w)
  /\ conn (snd (register_fits_files fits_files w))
     = conn (snd (register_fits_files readable w)).
Proof.
  cbv zeta. revert w. induction fits_files as [|[p o] rest IH]; intros w.
  - now split.
  - destruct o as [err|h]; cbn [List.filter snd].
    + rewrite register_fits_files_cons. cbn [register_fits_file]. unfold print.
      destruct (register_fits_files_console rest
                  {| conn := conn w;
                     stdout := (stdout w ++ [("Error reading " ++ p ++ ": "
                                              ++ err)%string])%list |} w
                  eq_refl) as [Hf Hk].
      destruct (IH w) as [Hf' Hk']. split; congruence.
    + rewrite !register_fits_files_cons.
      destruct (register_fits_file p (Readable h) w) as [[[]|e] w1].
      * apply IH.
      * now split.
Qed.

(** *** Flats *)

(** The turn of the loop for a CALIB frame whose type contains FLAT, at a
    path that is not in [raw_files]: the raw row, then [add_flat]. *)
Lemma register_flat_frame fits_file h w cdelt1 cdelt2 ty :
  py_int (CDELT1 h) = Ok cdelt1 -> py_int (CDELT2 h) = Ok cdelt2 ->
  DPR_CATG h = Some "CALIB" -> DPR_TYPE h = Some ty ->
  contains "FLAT" ty = true ->
  existsb (fun r => String.eqb (rf_path r) fits_file) (raw_files (conn w)) = false ->
  exists row,
    rf_path row = fits_file
    /\ rf_id row = next_rowid (map rf_id (raw_files (conn w)))
    /\ rf_binning row = str_of_int cdelt1 ++ "x" ++ str_of_int cdelt2
    /\ rf_read_speed row = DET_READ_SPEED h
    /\ rf_filter row = INS_FILT1_NAME h
    /\ register_fits_file fits_file (Readable h) w
       = add_flat (rf_id row) (str_of_int cdelt1 ++ "x" ++ str_of_int cdelt2)
           (INS_FILT1_NAME h) (DET_READ_SPEED h)
           {| conn := {| raw_files := (raw_files (conn w) ++ [row])%list;
                         flats := flats (conn w); darks := darks (conn w);
                         science := science (conn w);
                         reduced_data := reduced_data (conn w) |};
              stdout := stdout w |}.
Proof.
  intros H1 H2 Hcat Hty Hflat E.
  cbn [register_fits_file]. unfold mbind, M_bind, lift, mret, M_ret.
  rewrite H1, H2, add_raw_file_unfold. cbn [fi_path]. rewrite E.
  unfold insert_raw_files. cbn [fi_path]. rewrite E.
  cbn [fi_path fi_category fi_type fi_object_name fi_date fi_binning fi_filter
       fi_read_speed fi_mjd fi_exposure_time].
  rewrite Hcat, Hty, Hflat.
  change (py_eq (Some "CALIB") "CALIB") with true. cbv iota.
  match goal with
  | |- context [(raw_files (conn w) ++ [?r])%list] => exists r
  end.
  repeat split.
Qed.

(** X17. Ingesting, into consistent tables, a flat at a new path whose
    binning, read speed and filter are those of a science exposure, none of
    them missing: the turn returns, and from then on the key of that science
    exposure resolves to a set of flats that holds the new frame. *)
Theorem ingested_flat_is_matched fits_file h w cdelt1 cdelt2 ty s rf :
  consistent (conn w) ->
  py_int (CDELT1 h) = Ok cdelt1 -> py_int (CDELT2 h) = Ok cdelt2 ->
  DPR_CATG h = Some "CALIB" -> DPR_TYPE h = Some ty ->
  contains "FLAT" ty = true ->
  existsb (fun r => String.eqb (rf_path r) fits_file) (raw_files (conn w)) = false ->
  In s (science (conn w)) -> In rf (raw_files (conn w)) ->
  rf_id rf = sc_raw_file_id s ->
  rf_binning rf = str_of_int cdelt1 ++ "x" ++ str_of_int cdelt2 ->
  DET_READ_SPEED h = rf_read_speed rf -> rf_read_speed rf <> None ->
  INS_FILT1_NAME h = rf_filter rf -> rf_filter rf <> None ->
  exists w1 flats_df darks_df row,
    register_fits_file fits_file (Readable h) w = (Ok tt, w1)
    /\ get_files_for_science (sc_unique_key s) w1
       = (Ok (Some (rf_path rf, flats_df, darks_df)), w1)
    /\ In row flats_df /\ rf_path row = fits_file.
Proof.
  intros Hc H1 H2 Hcat Hty Hflat E Hs Hrf Hid Hbin Hspeed Hspeed' Hfilt Hfilt'.
  destruct (register_flat_frame fits_file h w cdelt1 cdelt2 ty)
    as (row & Hpath & Hrid & Hrb & Hrs & Hrfl & Hrun); try assumption.
  pose proof (register_fits_file_consistent fits_file (Readable h) w Hc)
    as [Hc1 _].
  rewrite Hrun in Hc1 |- *. clear Hrun.
  assert (Efl : existsb (fun r => Z.eqb (fl_raw_file_id r) (rf_id row))
                        (flats (conn w)) = false).
  { apply existsb_none. intros y Hy. apply Z.eqb_neq. intros Heq.
    destruct Hc as [_ _ _ _ _ _ Href _ _].
    destruct (Href y Hy) as (r0 & Hr0 & Hr0id & _).
    apply (next_rowid_fresh (map rf_id (raw_files (conn w)))).
    rewrite <- Hrid, <- Heq, <- Hr0id. now apply in_map. }
  unfold add_flat, execute, insert_or_ignore_flats in Hc1 |- *.
  cbn [conn flats] in Hc1 |- *. rewrite Efl in Hc1 |- *.
  cbn [snd conn] in Hc1.
  match goal with |- context [(Ok tt, ?w0)] => set (w1 := w0) in * end.
  set (frow := {| fl_id := next_rowid (map fl_id (flats (conn w)));
                  fl_raw_file_id := rf_id row;
                  fl_binning := str_of_int cdelt1 ++ "x" ++ str_of_int cdelt2;
                  fl_filter := INS_FILT1_NAME h;
                  fl_read_speed := DET_READ_SPEED h |}) in *.
  pose proof Hc1 as [Hids _ _ _ _ Hkeys _ _ _].
  exists w1. do 2 eexists. exists row.
  split; [reflexivity|]. split; [|split; [|exact Hpath]].
  - apply (get_files_for_science_returns w1 s rf Hkeys Hids Hs); [|exact Hid].
    simpl. apply in_or_app. now left.
  - apply flats_query_In. exists frow. split; [|split; [|split; [|split]]].
    + simpl. apply in_or_app. right. now left.
    + simpl. apply in_or_app. right. now left.
    + reflexivity.
    + simpl. now rewrite Hbin, Hspeed, Hfilt.
    + now split.
Qed.

Lemma ingested_flat_is_matched_witness :
  exists w1 flats_df darks_df row,
    register_fits_file "flat2.fits"
      (Readable (calib_header "FLAT,LAMP" (Some "R_SPECIAL")))
      (catalogue (Some "R_SPECIAL")) = (Ok tt, w1)
    /\ get_files_for_science "NGC1365__2024-01-02T03:00:00" w1
       = (Ok (Some ("science.fits", flats_df, darks_df)), w1)
    /\ In row flats_df /\ rf_path row = "flat2.fits".
Proof.
  apply (ingested_flat_is_matched "flat2.fits"
           (calib_header "FLAT,LAMP" (Some "R_SPECIAL"))
           (catalogue (Some "R_SPECIAL")) 2 2 "FLAT,LAMP"
           {| sc_id := 1; sc_raw_file_id := 1;
              sc_unique_key := "NGC1365__2024-01-02T03:00:00";
              sc_object_name := "NGC1365";
              sc_date := "2024-01-02T03:00:00" |}
           {| rf_id := 1; rf_path := "science.fits"; rf_binning := "2x2";
              rf_filter := Some "R_SPECIAL";
              rf_category := Some "SCIENCE"; rf_type := Some "OBJECT";
              rf_mjd := Some 60310.75%float;
              rf_exposure_time := Some 300%float;
              rf_read_speed := Some "200Kps/low_gain";
              rf_object_name := Some "NGC1365";
              rf_date := Some "2024-01-02T03:00:00" |}).
  - apply register_fits_files_keep_consistent, consistent_create_tables.
  - vm_compute. reflexivity.
  - vm_compute. reflexivity.
  - reflexivity.
  - reflexivity.
  - vm_compute. reflexivity.
  - vm_compute. reflexivity.
  - vm_compute. left. reflexivity.
  - vm_compute. left. reflexivity.
  - reflexivity.
  - vm_compute. reflexivity.
  - reflexivity.
  - discriminate.
  - reflexivity.
  - discriminate.
Defined.

(** *** A calibration frame without a type *)

(** X18. A CALIB frame at a new path whose header has no DPR TYPE card: the
    raw row is stored and committed, then ['FLAT' in None] raises
    [TypeError]; no flat, dark or science row is made and nothing is printed.
    A later turn on the same file finds the path, returns and changes
    nothing, so the frame stays unclassified. *)
Theorem calib_frame_without_type fits_file h w cdelt1 cdelt2 :
  py_int (CDELT1 h) = Ok cdelt1 -> py_int (CDELT2 h) = Ok cdelt2 ->
  DPR_CATG h = Some "CALIB" -> DPR_TYPE h = None ->
  existsb (fun r => String.eqb (rf_path r) fits_file) (raw_files (conn w)) = false ->
  exists w1 row,
    register_fits_file fits_file (Readable h) w = (Raise TypeError, w1)
    /\ raw_files (conn w1) = (raw_files (conn w) ++ [row])%list
    /\ rf_path row = fits_file
    /\ flats (conn w1) = flats (conn w) /\ darks (conn w1) = darks (conn w)
    /\ science (conn w1) = science (conn w)
    /\ stdout w1 = stdout w
    /\ register_fits_file fits_file (Readable h) w1 = (Ok tt, w1).
Proof.
  intros H1 H2 Hcat Hty E.
  assert (Hrun : exists row,
    rf_path row = fits_file
    /\ register_fits_file fits_file (Readable h) w
       = (Raise TypeError,
          {| conn := {| raw_files := (raw_files (conn w) ++ [row])%list;
                        flats := flats (conn w); darks := darks (conn w);
                        science := science (conn w);
                        reduced_data := reduced_data (conn w) |};
             stdout := stdout w |})).
  { cbn [register_fits_file]. unfold mbind, M_bind, lift, mret, M_ret.
    rewrite H1, H2, add_raw_file_unfold. cbn [fi_path]. rewrite E.
    unfold insert_raw_files. cbn [fi_path]. rewrite E.
    cbn [fi_path fi_category fi_type]. rewrite Hcat, Hty.
    change (py_eq (Some "CALIB") "CALIB") with true. cbv iota.
    eexists. split; [|reflexivity]. reflexivity. }
  destruct Hrun as (row & Hpath & Hrun). rewrite Hrun.
  eexists. exists row. repeat (split; [reflexivity || assumption|]).
  apply (register_fits_file_known_path _ _ _ cdelt1 cdelt2 H1 H2).
  cbn [conn raw_files]. rewrite existsb_app. simpl.
  rewrite Hpath, String.eqb_refl. now rewrite orb_true_r.
Qed.

Lemma calib_frame_without_type_witness :
  exists w1 row,
    register_fits_file "bias.fits" (Readable untyped_calib_header) fresh
    = (Raise TypeError, w1)
    /\ raw_files (conn w1) = (raw_files (conn fresh) ++ [row])%list
    /\ rf_path row = "bias.fits"
    /\ flats (conn w1) = flats (conn fresh)
    /\ darks (conn w1) = darks (conn fresh)
    /\ science (conn w1) = science (conn fresh)
    /\ stdout w1 = stdout fresh
    /\ register_fits_file "bias.fits" (Readable untyped_calib_header) w1
       = (Ok tt, w1).
Proof.
  apply (calib_frame_without_type "bias.fits" untyped_calib_header fresh 1 1);
    reflexivity.
Defined.

End Ingested.

(** ** reducer.py: files read and written *)

Section Files.

Local Open Scope string_scope.

Implicit Types (fs : gmap string hdu).

(** X10. [reduce_science_file] touches no file but the output: every other
    path holds what it held; on an exception nothing at all is written; on
    return the output holds a header whose REDUC card is the string
    'bias sub and flat field' and whose other cards are those of the science
    file. *)
Theorem reduce_science_file_writes_only_output sp ffs dfs out fs r fs' :
  reduce_science_file sp ffs dfs out fs = (r, fs') ->
  (forall p, p <> out -> fs' !! p = fs !! p)
  /\ (forall e, r = Raise e -> fs' = fs)
  /\ (r = Ok tt ->
      exists sci written,
        fs !! sp = Some sci
        /\ fs' !! out = Some written
        /\ REDUC (hdu_header written) = Some "bias sub and flat field"
        /\ CDELT1 (hdu_header written) = CDELT1 (hdu_header sci)
        /\ CDELT2 (hdu_header written) = CDELT2 (hdu_header sci)
        /\ INS_FILT1_NAME (hdu_header written) = INS_FILT1_NAME (hdu_header sci)
        /\ DPR_CATG (hdu_header written) = DPR_CATG (hdu_header sci)
        /\ DPR_TYPE (hdu_header written) = DPR_TYPE (hdu_header sci)
        /\ MJD_OBS (hdu_header written) = MJD_OBS (hdu_header sci)
        /\ EXPTIME (hdu_header written) = EXPTIME (hdu_header sci)
        /\ DET_READ_SPEED (hdu_header written) = DET_READ_SPEED (hdu_header sci)
        /\ DATE (hdu_header written) = DATE (hdu_header sci)
        /\ OBJECT (hdu_header written) = OBJECT (hdu_header sci)).
Proof.
  intros Hrun. destruct r as [[]|e].
  - destruct (reduce_science_file_returns _ _ _ _ _ _ Hrun)
      as (cd & nf & cl & sci & diff & red & h & _ & _ & _ & Hsci & _
          & _ & Hh & ->).
    split; [|split; [discriminate|]].
    + intros p Hp. unfold writeto. now rewrite lookup_insert_ne.
    + intros _. unfold getdata in Hsci. unfold getheader in Hh.
      destruct (fs !! sp) as [f|] eqn:Hf; [|discriminate].
      injection Hh as <-.
      exists f. eexists. split; [reflexivity|]. split.
      * unfold writeto. now rewrite lookup_insert_eq.
      * repeat split.
  - assert (fs' = fs) as ->.
    { revert Hrun. unfold reduce_science_file. cbv zeta.
      destruct (_ ≫= _) as [[red h]|e']; [discriminate|]. now intros [= _ <-]. }
    split; [reflexivity|]. split; [reflexivity | discriminate].
Qed.

Lemma reduce_science_file_writes_only_output_witness :
  (forall p, p <> "reduced.fits" ->
     snd (reduce_science_file "science.fits" ["flat.fits"] ["dark.fits"]
            "reduced.fits" vignetted) !! p = vignetted !! p)
  /\ (forall e, Ok tt = Raise e ->
        snd (reduce_science_file "science.fits" ["flat.fits"] ["dark.fits"]
               "reduced.fits" vignetted) = vignetted)
  /\ (Ok tt = Ok tt ->
      exists sci written,
        vignetted !! "science.fits" = Some sci
        /\ snd (reduce_science_file "science.fits" ["flat.fits"] ["dark.fits"]
                  "reduced.fits" vignetted) !! "reduced.fits" = Some written
        /\ REDUC (hdu_header written) = Some "bias sub and flat field"
        /\ CDELT1 (hdu_header written) = CDELT1 (hdu_header sci)
        /\ CDELT2 (hdu_header written) = CDELT2 (hdu_header sci)
        /\ INS_FILT1_NAME (hdu_header written) = INS_FILT1_NAME (hdu_header sci)
        /\ DPR_CATG (hdu_header written) = DPR_CATG (hdu_header sci)
        /\ DPR_TYPE (hdu_header written) = DPR_TYPE (hdu_header sci)
        /\ MJD_OBS (hdu_header written) = MJD_OBS (hdu_header sci)
        /\ EXPTIME (hdu_header written) = EXPTIME (hdu_header sci)
        /\ DET_READ_SPEED (hdu_header written) = DET_READ_SPEED (hdu_header sci)
        /\ DATE (hdu_header written) = DATE (hdu_header sci)
        /\ OBJECT (hdu_header written) = OBJECT (hdu_header sci)).
Proof.
  apply (reduce_science_file_writes_only_output "science.fits" ["flat.fits"]
           ["dark.fits"] "reduced.fits" vignetted (Ok tt)).
  vm_compute. reflexivity.
Defined.

(** *** Files that are read *)

Lemma for_each_Ok {A B} (f : A -> result B) (l : list A) (bs : list B) :
  for_each f l = Ok bs -> Forall2 (fun a b => f a = Ok b) l bs.
Proof.
  revert bs. induction l as [|a l IH]; intros bs H.
  - injection H as <-. constructor.
  - cbn [for_each] in H. apply bind_Ok in H as (b & Hb & H).
    apply bind_Ok in H as (bs' & Hbs & H). injection H as <-.
    constructor; [exact Hb | now apply IH].
Qed.

Lemma Forall2_In_l {A B} (R : A -> B -> Prop) (l : list A) (bs : list B) (a : A) :
  Forall2 R l bs -> In a l -> exists b, In b bs /\ R a b.
Proof.
  induction 1 as [|x y l bs Hxy _ IH]; intros Hin; [destruct Hin|].
  destruct Hin as [-> | Hin].
  - exists y. split; [now left | exact Hxy].
  - destruct (IH Hin) as (b & Hb & Hab). exists b. split; [now right | exact Hab].
Qed.

Lemma getdata_Ok fs path d :
  getdata fs path = Ok d -> exists f, fs !! path = Some f /\ hdu_data f = d.
Proof.
  unfold getdata. destruct (fs !! path) as [f|]; [|discriminate].
  intros [= <-]. eauto.
Qed.

(** X11. A run of [reduce_science_file] that returns was given at least one
    flat, and the science file, every flat and every dark exist: with no
    flat the clamp is an item assignment to a numpy scalar and raises, and
    a path that does not exist raises where it is read. *)
Theorem reduce_science_file_needs_its_files sp ffs dfs out fs fs' :
  reduce_science_file sp ffs dfs out fs = (Ok tt, fs') ->
  ffs <> []
  /\ forall p, In p (sp :: ffs ++ dfs)%list -> is_Some (fs !! p).
Proof.
  intros Hrun.
  destruct (reduce_science_file_returns _ _ _ _ _ _ Hrun)
    as (cd & nf & cl & data & diff & red & h & Hcd & Hnf & Hcl & Hsci & _
        & _ & _ & _).
  apply getdata_Ok in Hsci as (sci & Hsci & _).
  destruct nf as [z|px]; [discriminate|].
  unfold normalized_flat in Hnf.
  apply bind_Ok in Hnf as (flats' & Hflats & Hnf).
  apply bind_Ok in Hnf as (cf & Hcf & Hnf). injection Hnf as Hnf.
  destruct cf as [z|px0]; [discriminate|].
  apply for_each_Ok in Hflats.
  split.
  - intros ->. inversion Hflats; subst. discriminate.
  - intros p [<- | Hp]; [eauto|].
    apply in_app_or in Hp as [Hp | Hp].
    + destruct (Forall2_In_l _ _ _ _ Hflats Hp) as (b & _ & Hfb).
      apply bind_Ok in Hfb as (d & Hd & _).
      apply getdata_Ok in Hd as (f & Hf & _). eauto.
    + unfold combine_darks in Hcd.
      apply bind_Ok in Hcd as (darks & Hdarks & _).
      apply for_each_Ok in Hdarks.
      destruct (Forall2_In_l _ _ _ _ Hdarks Hp) as (b & _ & Hfb).
      apply getdata_Ok in Hfb as (f & Hf & _). eauto.
Qed.

Lemma reduce_science_file_needs_its_files_witness :
  ["flat1.fits"; "flat2.fits"] <> []
  /\ forall p, In p ("science.fits"
                     :: ["flat1.fits"; "flat2.fits"]
                        ++ ["dark1.fits"; "dark2.fits"; "dark3.fits"])%list ->
               is_Some (night !! p).
Proof.
  apply (reduce_science_file_needs_its_files "science.fits"
           ["flat1.fits"; "flat2.fits"]
           ["dark1.fits"; "dark2.fits"; "dark3.fits"] "reduced.fits" night
           (snd (reduce_science_file "science.fits" ["flat1.fits"; "flat2.fits"]
                   ["dark1.fits"; "dark2.fits"; "dark3.fits"] "reduced.fits"
                   night))).
  vm_compute. reflexivity.
Defined.

(** X12. A dark file that does not exist: the call raises
    [FileNotFoundError] and writes nothing. *)
Theorem missing_dark_raises sp ffs dfs out fs dark :
  In dark dfs -> fs !! dark = None ->
  reduce_science_file sp ffs dfs out fs = (Raise FileNotFoundError, fs).
Proof.
  intros Hin Hnone.
  assert (Hdarks : for_each (getdata fs) dfs = Raise FileNotFoundError).
  { induction dfs as [|p l IH]; [destruct Hin|]. cbn [for_each].
    destruct (getdata fs p) as [d|e] eqn:Hp.
    - destruct Hin as [-> | Hin].
      + unfold getdata in Hp. rewrite Hnone in Hp. discriminate.
      + cbn [mbind result_bind]. now rewrite IH.
    - unfold getdata in Hp. destruct (fs !! p); [discriminate|].
      now injection Hp as <-. }
  unfold reduce_science_file, combine_darks. cbv zeta. now rewrite Hdarks.
Qed.

Lemma missing_dark_raises_witness :
  reduce_science_file "science.fits" ["flat1.fits"] ["dark1.fits"; "dark9.fits"]
    "reduced.fits" night
  = (Raise FileNotFoundError, night).
Proof.
  apply (missing_dark_raises "science.fits" ["flat1.fits"]
           ["dark1.fits"; "dark9.fits"] "reduced.fits" night "dark9.fits").
  - right. left. reflexivity.
  - reflexivity.
Defined.

(** *** Running the reduction again *)

Lemma for_each_ext {A B} (f g : A -> result B) (l : list A) :
  (forall a, In a l -> f a = g a) -> for_each f l = for_each g l.
Proof.
  induction l as [|a l IH]; intros H; [reflexivity|]. cbn [for_each].
  rewrite (H a) by now left. rewrite IH; [reflexivity|].
  intros b Hb. apply H. now right.
Qed.

(** The stages read the file system at the paths they are given only. *)
Lemma stages_ext fs1 fs2 sp ffs dfs :
  (forall p, In p (sp :: ffs ++ dfs)%list -> fs1 !! p = fs2 !! p) ->
  combine_darks fs1 dfs = combine_darks fs2 dfs
  /\ (forall cd, normalized_flat fs1 ffs cd = normalized_flat fs2 ffs cd)
  /\ getdata fs1 sp = getdata fs2 sp
  /\ getheader fs1 sp = getheader fs2 sp.
Proof.
  intros H.
  assert (Hdata : forall p, In p (sp :: ffs ++ dfs)%list ->
                            getdata fs1 p = getdata fs2 p).
  { intros p Hp. unfold getdata. now rewrite (H p Hp). }
  split; [|split; [|split]].
  - unfold combine_darks. rewrite (for_each_ext (getdata fs1) (getdata fs2));
      [reflexivity|].
    intros p Hp. apply Hdata. right. apply in_or_app. now right.
  - intros cd. unfold normalized_flat.
    rewrite (for_each_ext
               (fun flat => d ← getdata fs1 flat; broadcast PrimFloat.sub d cd)
               (fun flat => d ← getdata fs2 flat; broadcast PrimFloat.sub d cd));
      [reflexivity|].
    intros p Hp. rewrite Hdata; [reflexivity|]. right. apply in_or_app. now left.
  - apply Hdata. now left.
  - unfold getheader. rewrite (H sp); [reflexivity | now left].
Qed.

(** X13. With an output path that is none of the input paths, a second call
    with the same arguments returns again and writes the same file: the file
    system is as the first call left it. *)
Theorem reduce_science_file_again sp ffs dfs out fs fs' :
  ~ In out (sp :: ffs ++ dfs)%list ->
  reduce_science_file sp ffs dfs out fs = (Ok tt, fs') ->
  reduce_science_file sp ffs dfs out fs' = (Ok tt, fs').
Proof.
  intros Hout Hrun.
  destruct (reduce_science_file_returns _ _ _ _ _ _ Hrun)
    as (cd & nf & cl & sci & diff & red & h & Hcd & Hnf & Hcl & Hsci & Hdiff
        & Hred & Hh & ->).
  destruct (stages_ext
              (writeto out red (set_REDUC "bias sub and flat field" h) fs)
              fs sp ffs dfs) as (Ed & Ef & Es & Eh).
  { intros p Hp. unfold writeto. apply lookup_insert_ne. now intros <-. }
  unfold reduce_science_file. cbv zeta.
  rewrite Ed, Hcd. cbn [mbind result_bind]. rewrite Ef, Hnf.
  cbn [mbind result_bind]. rewrite Hcl. cbn [mbind result_bind].
  rewrite Es, Hsci. cbn [mbind result_bind]. rewrite Hdiff.
  cbn [mbind result_bind]. rewrite Hred. cbn [mbind result_bind].
  rewrite Eh, Hh. cbn [mbind result_bind].
  unfold writeto. now rewrite insert_insert_eq.
Qed.

Lemma reduce_science_file_again_witness :
  reduce_science_file "science.fits" ["flat.fits"] ["dark.fits"] "reduced.fits"
    (snd (reduce_science_file "science.fits" ["flat.fits"] ["dark.fits"]
            "reduced.fits" vignetted))
  = (Ok tt,
     snd (reduce_science_file "science.fits" ["flat.fits"] ["dark.fits"]
            "reduced.fits" vignetted)).
Proof.
  apply (reduce_science_file_again "science.fits" ["flat.fits"] ["dark.fits"]
           "reduced.fits" vignetted).
  - intros [H | [H | [H | []]]]; discriminate.
  - vm_compute. reflexivity.
Defined.

End Files.

(** ** database.py: the binning string *)

Section Binning.

Local Open Scope string_scope.

Lemma x_free_string_of_uint (d : Decimal.uint) :
  x_free (NilEmpty.string_of_uint d).
Proof.
  induction d as [|d IH|d IH|d IH|d IH|d IH|d IH|d IH|d IH|d IH|d IH];
    intros c Hc; simpl in Hc; try destruct Hc as [<- | Hc];
    try discriminate; try (exact (IH c Hc)); destruct Hc.
Qed.

Lemma x_free_str_of_int (z : Z) : x_free (str_of_int z).
Proof.
  unfold str_of_int. destruct (Z.to_int z) as [d|d]; simpl.
  - apply x_free_string_of_uint.
  - intros c [<- | Hc]; [discriminate | exact (x_free_string_of_uint d c Hc)].
Qed.

Lemma str_of_int_inj (z z' : Z) : str_of_int z = str_of_int z' -> z = z'.
Proof.
  unfold str_of_int. intros H. apply DecimalZ.to_int_inj.
  apply (f_equal NilEmpty.int_of_string) in H.
  rewrite !NilEmpty.isi in H. now injection H.
Qed.

(** The first x of a string splits it in one way. *)
Lemma split_at_x (a a' b b' : string) :
  x_free a -> x_free a' ->
  a ++ "x" ++ b = a' ++ "x" ++ b' -> a = a' /\ b = b'.
Proof.
  change ("x" ++ b) with (String "x" b). change ("x" ++ b') with (String "x" b').
  revert a'. induction a as [|c a IH]; intros [|c' a'] Ha Ha' H.
  - change (String "x" b = String "x" b') in H. injection H as ->. now split.
  - change (String "x" b = String c' (a' ++ String "x" b')) in H.
    injection H as <- _. destruct (Ha' "x"%char); [now left | reflexivity].
  - change (String c (a ++ String "x" b) = String "x" b') in H.
    injection H as -> _. destruct (Ha "x"%char); [now left | reflexivity].
  - change (String c (a ++ String "x" b) = String c' (a' ++ String "x" b')) in H.
    injection H as -> H. destruct (IH a') as [-> ->]; try assumption.
    + intros x Hx. apply Ha. now right.
    + intros x Hx. apply Ha'. now right.
    + now split.
Qed.

(** X15. The binning string "{cdelt1}x{cdelt2}" determines the two
    integers: two frames get the same binning exactly when both their axis
    values agree. *)
Theorem binning_determines_axes (cdelt1 cdelt2 cdelt1' cdelt2' : Z) :
  str_of_int cdelt1 ++ "x" ++ str_of_int cdelt2
  = str_of_int cdelt1' ++ "x" ++ str_of_int cdelt2'
  <-> cdelt1 = cdelt1' /\ cdelt2 = cdelt2'.
Proof.
  split.
  - intros H. apply split_at_x in H as [H1 H2];
      try apply x_free_str_of_int.
    split; now apply str_of_int_inj.
  - now intros [-> ->].
Qed.

End Binning.
